(** * The Python fixture of the semantic-tags plugin

    The repository holds one file, [test-files/test-python.py]: sample
    snippets, each group introduced by a comment naming the tag a pattern
    tagger should give it.  The file is embedded twice, as the text it is
    (a list of lines) and as the Python module it parses to (a list of
    statements with their line numbers); [unparse] ties the two together.
    The module is then run by a small evaluator whose namespace is a finite
    map, as a Python module's globals are. *)

From Stdlib Require Import Ascii String List Bool Arith Lia.
From stdpp Require Import base option list gmap strings.

#[local] Set Warnings "-register-all".

Local Open Scope string_scope.
Local Open Scope list_scope.

(** ** The text of the file *)

Module Text.

(** The double quote, the one character a string literal cannot spell. *)
Definition dq : ascii := "034"%char.
Definition q : string := String dq EmptyString.

(** [test-files/test-python.py], line by line (line 1 first). *)
Definition test_python : list string :=
  [ "import requests"
  ; "import json"
  ; ""
  ; "# Network calls - should be tagged as " +:+ q +:+ "Network Call" +:+ q
  ; "response = requests.get('https://api.example.com')"
  ; "fetch_data = http.get('/api/users')"
  ; ""
  ; "# Debug statements - should be tagged as " +:+ q +:+ "Debug Statement" +:+ q
  ; "print(" +:+ q +:+ "Debug message" +:+ q +:+ ")"
  ; "console.log(" +:+ q +:+ "Another debug" +:+ q +:+ ")"
  ; "debugger()"
  ; ""
  ; "# TODOs - should be tagged as " +:+ q +:+ "Unfinished Block" +:+ q
  ; "# TODO: Add error handling"
  ; "# FIXME: This function is broken"
  ; "# HACK: Temporary fix for the bug"
  ; "# NOTE: Remember to update this"
  ; ""
  ; "# Database operations - should be tagged as " +:+ q +:+ "Database Operation" +:+ q
  ; "user = User.objects.get(id=1)"
  ; "query = " +:+ q +:+ "SELECT * FROM users WHERE active = 1" +:+ q
  ; "User.create(name=" +:+ q +:+ "John" +:+ q +:+ ", email=" +:+ q
      +:+ "john@example.com" +:+ q +:+ ")"
  ; "users.save()"
  ; ""
  ; "# Error handling - should be tagged as " +:+ q +:+ "Error Handling" +:+ q
  ; "try:"
  ; "    risky_operation()"
  ; "except Exception as e:"
  ; "    print(f" +:+ q +:+ "Error: {e}" +:+ q +:+ ")"
  ; "    raise ValueError(" +:+ q +:+ "Custom error" +:+ q +:+ ")"
  ; ""
  ; "# Authentication - should be tagged as " +:+ q +:+ "Authentication" +:+ q
  ; "token = generate_jwt_token(user_id)"
  ; "if user.is_authenticated():"
  ; "    login_user(user)"
  ; "password_hash = hash_password(password)"
  ; ""
  ; "# Configuration - should be tagged as " +:+ q +:+ "Configuration" +:+ q
  ; "api_key = os.environ.get('API_KEY')"
  ; "config = load_config_file()"
  ; "settings = get_app_settings()"
  ].

(** The files of the repository, by path. *)
Definition repository : list (string * list string) :=
  [ ("test-files/test-python.py", test_python) ].

(** *** Lines as characters *)

Abbreviation chars := list_ascii_of_string.
Abbreviation text := string_of_list_ascii.

Definition is_space (a : ascii) : bool :=
  Ascii.eqb a " " || Ascii.eqb a "009".

Fixpoint lstrip (l : list ascii) : list ascii :=
  match l with
  | a :: l' => if is_space a then lstrip l' else l
  | [] => []
  end.

Fixpoint starts_with (p l : list ascii) : bool :=
  match p, l with
  | [], _ => true
  | a :: p', b :: l' => Ascii.eqb a b && starts_with p' l'
  | _ :: _, [] => false
  end.

(** [strip_prefix p l] is what follows [p] in [l], when [l] starts with [p]. *)
Fixpoint strip_prefix (p l : list ascii) : option (list ascii) :=
  match p, l with
  | [], _ => Some l
  | a :: p', b :: l' => if Ascii.eqb a b then strip_prefix p' l' else None
  | _ :: _, [] => None
  end.

(** [occurs p l]: [p] is a contiguous part of [l]. *)
Fixpoint occurs (p l : list ascii) : bool :=
  starts_with p l ||
  match l with
  | [] => false
  | _ :: l' => occurs p l'
  end.

Definition is_blank (s : string) : bool :=
  match lstrip (chars s) with [] => true | _ => false end.

Definition is_comment (s : string) : bool :=
  match lstrip (chars s) with "#"%char :: _ => true | _ => false end.

Definition is_import (s : string) : bool :=
  starts_with (chars "import ") (chars s) || starts_with (chars "from ") (chars s).

(** *** Annotation comments

    An annotation has the shape
    [# <description> - should be tagged as "<Category>"]. *)

Definition tagged_as : list ascii := chars " - should be tagged as ".

(** The longest quote-free prefix of [l], and the rest. *)
Fixpoint upto_quote (l : list ascii) : list ascii * list ascii :=
  match l with
  | [] => ([], [])
  | a :: l' =>
      if Ascii.eqb a dq then ([], l)
      else let '(c, r) := upto_quote l' in (a :: c, r)
  end.

(** The line is read from its end: the closing quote, the label back to the
    opening quote, the fixed phrase, and what is left is ["# "] and the
    description. *)
Definition annotation_chars (l : list ascii) : option (list ascii * list ascii) :=
  match rev l with
  | a :: r =>
      if Ascii.eqb a dq then
        let '(c, r1) := upto_quote r in
        match r1 with
        | _ :: r2 =>
            match strip_prefix (rev tagged_as) r2 with
            | Some r3 =>
                match strip_prefix (chars "# ") (rev r3) with
                | Some d => Some (d, rev c)
                | None => None
                end
            | None => None
            end
        | [] => None
        end
      else None
  | [] => None
  end.

(** The shape of an annotation comment, on strings. *)
Definition annotation_shape (s d c : string) : Prop :=
  s = "# " +:+ d +:+ " - should be tagged as " +:+ q +:+ c +:+ q
  /\ (dq ∉ chars c).

(** Description and category of an annotation line. *)
Definition annotation (s : string) : option (string * string) :=
  match annotation_chars (chars s) with
  | Some (d, c) => Some (text d, text c)
  | None => None
  end.

Definition category (s : string) : option string :=
  match annotation s with Some (_, c) => Some c | None => None end.

(** *** Numbered lines, paragraphs and groups *)

Definition nline : Type := nat * string.

Fixpoint number_from (n : nat) (ls : list string) : list nline :=
  match ls with
  | [] => []
  | s :: ls' => (n, s) :: number_from (S n) ls'
  end.

Definition numbered (ls : list string) : list nline := number_from 1 ls.

(** Maximal runs of non-blank lines. *)
Fixpoint paragraphs_go (cur : list nline) (ls : list nline) : list (list nline) :=
  match ls with
  | [] => match cur with [] => [] | _ => [rev cur] end
  | x :: ls' =>
      if is_blank x.2
      then match cur with
           | [] => paragraphs_go [] ls'
           | _ => rev cur :: paragraphs_go [] ls'
           end
      else paragraphs_go (x :: cur) ls'
  end.

Definition paragraphs (ls : list nline) : list (list nline) := paragraphs_go [] ls.

(** A group: the annotation that introduces it and the lines under it. *)
Record group := Group
  { g_line : nat
  ; g_description : string
  ; g_category : string
  ; g_body : list nline }.

Definition group_of (p : list nline) : option group :=
  match p with
  | (n, s) :: body =>
      match annotation s with
      | Some (d, c) => Some (Group n d c body)
      | None => None
      end
  | [] => None
  end.

Definition group_lines (g : group) : list nat := g.(g_line) :: map fst g.(g_body).

(** The annotated groups of a file, in order. *)
Definition groups (ls : list string) : list group :=
  omap group_of (paragraphs (numbered ls)).

(** The annotation lines of a file, wherever they stand. *)
Definition annotations (ls : list string) : list (nat * string) :=
  omap (fun x : nline => match category x.2 with
                         | Some c => Some (x.1, c)
                         | None => None
                         end) (numbered ls).

(** *** Words, keywords and markers *)

Definition is_word_char (a : ascii) : bool :=
  let n := nat_of_ascii a in
  (Nat.leb 97 n && Nat.leb n 122) || (Nat.leb 65 n && Nat.leb n 90)
  || (Nat.leb 48 n && Nat.leb n 57) || Nat.eqb n 95.

Definition is_upper (a : ascii) : bool :=
  let n := nat_of_ascii a in Nat.leb 65 n && Nat.leb n 90.

(** Maximal runs of letters, digits and underscores. *)
Fixpoint words_go (cur : list ascii) (l : list ascii) : list string :=
  match l with
  | [] => match cur with [] => [] | _ => [text (rev cur)] end
  | a :: l' =>
      if is_word_char a then words_go (a :: cur) l'
      else match cur with
           | [] => words_go [] l'
           | _ => text (rev cur) :: words_go [] l'
           end
  end.

Definition words (s : string) : list string := words_go [] (chars s).

Definition mem (x : string) (l : list string) : bool := existsb (String.eqb x) l.

Fixpoint indent_chars (l : list ascii) : nat :=
  match l with
  | a :: l' => if Ascii.eqb a " " then S (indent_chars l') else 0
  | [] => 0
  end.

Definition indent (s : string) : nat := indent_chars (chars s).

Definition is_code (s : string) : bool := negb (is_blank s || is_comment s).

(** The word a code line starts with. *)
Definition head_word (s : string) : option string :=
  if is_code s then
    match lstrip (chars s) with
    | a :: _ => if is_word_char a then head (words s) else None
    | [] => None
    end
  else None.

Definition branching : list string := [ "if"; "elif"; "else"; "match"; "case" ].
Definition looping : list string := [ "for"; "while"; "break"; "continue" ].
Definition exception_handling : list string :=
  [ "try"; "except"; "finally"; "raise"; "assert" ].
Definition defining : list string := [ "def"; "class"; "async"; "lambda" ].

(** The control keyword that heads a line, if one does. *)
Definition control_keyword (s : string) : option string :=
  match head_word s with
  | Some w =>
      if mem w branching || mem w looping || mem w exception_handling
      then Some w else None
  | None => None
  end.

Definition control_lines (ls : list string) : list (nat * string) :=
  omap (fun x : nline => match control_keyword x.2 with
                         | Some w => Some (x.1, w)
                         | None => None
                         end) (numbered ls).

(** The lines, by number, on which [w] stands as a word. *)
Definition word_lines (w : string) (ls : list string) : list nat :=
  omap (fun x : nline => if mem w (words x.2) then Some x.1 else None) (numbered ls).

(** The same over code lines only. *)
Definition code_word_lines (w : string) (ls : list string) : list nat :=
  omap (fun x : nline =>
          if is_code x.2 && mem w (words x.2) then Some x.1 else None) (numbered ls).

(** The lines, by number, in which [p] stands as a run of characters. *)
Definition occurrence_lines (p : string) (ls : list string) : list nat :=
  omap (fun x : nline =>
          if occurs (chars p) (chars x.2) then Some x.1 else None) (numbered ls).

(** How often [p] stands in [l], overlaps counted. *)
Fixpoint count_occurrences (p l : list ascii) : nat :=
  (if starts_with p l then 1 else 0)
  + match l with
    | [] => 0
    | _ :: l' => count_occurrences p l'
    end.

(** A marker comment is [# WORD: ...] with [WORD] in capitals. *)
Definition marker (s : string) : option string :=
  match strip_prefix (chars "# ") (chars s) with
  | Some r =>
      match words_go [] r, r with
      | w :: _, a :: _ =>
          if is_upper a && forallb is_upper (chars w)
             && starts_with (chars (w +:+ ":")) r
          then Some w else None
      | _, _ => None
      end
  | None => None
  end.

Definition markers (ls : list nline) : list (nat * string) :=
  omap (fun x : nline => match marker x.2 with
                         | Some w => Some (x.1, w)
                         | None => None
                         end) ls.

Definition code_lines (ls : list string) : list nline :=
  List.filter (fun x : nline => is_code x.2) (numbered ls).

Definition comment_lines (ls : list string) : list nline :=
  List.filter (fun x : nline => is_comment x.2) (numbered ls).

End Text.

(** ** The module the file parses to *)

Module Py.

Inductive quote := Single | Double.

(** Expressions, after Python's [ast]: an f-string is a [JoinedStr] whose
    values are string constants and [FormattedValue]s. *)
Inductive expr :=
| Name (x : string)
| Str (k : quote) (s : string)
| Num (n : nat)
| FormattedValue (e : expr)
| JoinedStr (k : quote) (values : list expr)
| Attribute (e : expr) (attr : string)
| Call (func : expr) (args : list expr) (keywords : list (string * expr)).

(** Statements, each with the line it starts on. *)
Inductive stmt :=
| Import (line : nat) (m : string)
| Assign (line : nat) (target : string) (value : expr)
| Expr (line : nat) (e : expr)
| Raise (line : nat) (e : expr)
| If (line : nat) (test : expr) (body : list stmt) (orelse : list stmt)
| Try (line : nat) (body : list stmt) (handlers : list handler)
with handler :=
| ExceptHandler (line : nat) (type : expr) (name : option string) (body : list stmt).

Definition call0 (f : expr) : expr := Call f [] [].

(** [test-files/test-python.py] as a module body. *)
Definition test_python : list stmt :=
  [ Import 1 "requests"
  ; Import 2 "json"
  ; Assign 5 "response"
      (Call (Attribute (Name "requests") "get") [Str Single "https://api.example.com"] [])
  ; Assign 6 "fetch_data"
      (Call (Attribute (Name "http") "get") [Str Single "/api/users"] [])
  ; Expr 9 (Call (Name "print") [Str Double "Debug message"] [])
  ; Expr 10 (Call (Attribute (Name "console") "log") [Str Double "Another debug"] [])
  ; Expr 11 (call0 (Name "debugger"))
  ; Assign 20 "user"
      (Call (Attribute (Attribute (Name "User") "objects") "get") [] [("id", Num 1)])
  ; Assign 21 "query" (Str Double "SELECT * FROM users WHERE active = 1")
  ; Expr 22 (Call (Attribute (Name "User") "create") []
               [("name", Str Double "John"); ("email", Str Double "john@example.com")])
  ; Expr 23 (call0 (Attribute (Name "users") "save"))
  ; Try 26
      [ Expr 27 (call0 (Name "risky_operation")) ]
      [ ExceptHandler 28 (Name "Exception") (Some "e")
          [ Expr 29 (Call (Name "print")
                       [JoinedStr Double [Str Double "Error: "; FormattedValue (Name "e")]] [])
          ; Raise 30 (Call (Name "ValueError") [Str Double "Custom error"] []) ] ]
  ; Assign 33 "token" (Call (Name "generate_jwt_token") [Name "user_id"] [])
  ; If 34 (call0 (Attribute (Name "user") "is_authenticated"))
      [ Expr 35 (Call (Name "login_user") [Name "user"] []) ]
      []
  ; Assign 36 "password_hash" (Call (Name "hash_password") [Name "password"] [])
  ; Assign 39 "api_key"
      (Call (Attribute (Attribute (Name "os") "environ") "get") [Str Single "API_KEY"] [])
  ; Assign 40 "config" (call0 (Name "load_config_file"))
  ; Assign 41 "settings" (call0 (Name "get_app_settings"))
  ].

(** *** Back to text *)

Definition quote_string (k : quote) : string :=
  match k with Single => "'" | Double => Text.q end.

Fixpoint join (sep : string) (ss : list string) : string :=
  match ss with
  | [] => ""
  | [s] => s
  | s :: ss' => s +:+ sep +:+ join sep ss'
  end.

Fixpoint digits_go (fuel n : nat) (acc : string) : string :=
  match fuel with
  | 0 => acc
  | S fuel' =>
      let acc' := String (ascii_of_nat (48 + n mod 10)) acc in
      if Nat.eqb (n / 10) 0 then acc' else digits_go fuel' (n / 10) acc'
  end.

Definition digits (n : nat) : string := digits_go (S n) n "".

Fixpoint unparse_expr (e : expr) : string :=
  match e with
  | Name x => x
  | Str k s => quote_string k +:+ s +:+ quote_string k
  | Num n => digits n
  | FormattedValue e' => "{" +:+ unparse_expr e' +:+ "}"
  | JoinedStr k values =>
      "f" +:+ quote_string k
      +:+ (fix parts (vs : list expr) : string :=
             match vs with
             | [] => ""
             | Str _ s :: vs' => s +:+ parts vs'
             | v :: vs' => unparse_expr v +:+ parts vs'
             end) values
      +:+ quote_string k
  | Attribute e' a => unparse_expr e' +:+ "." +:+ a
  | Call f args kws =>
      unparse_expr f +:+ "("
      +:+ join ", "
            ((fix positional (es : list expr) : list string :=
                match es with
                | [] => []
                | e' :: es' => unparse_expr e' :: positional es'
                end) args
             ++ (fix keyword (ks : list (string * expr)) : list string :=
                   match ks with
                   | [] => []
                   | (k, e') :: ks' => (k +:+ "=" +:+ unparse_expr e') :: keyword ks'
                   end) kws)
      +:+ ")"
  end.

Fixpoint spaces (n : nat) : string :=
  match n with 0 => "" | S n' => " " +:+ spaces n' end.

(** The lines of a statement at indentation [ind], with their numbers.  An
    [else:] has no line of its own in the tree: it is given line 0. *)
Fixpoint unparse_stmt (ind : nat) (s : stmt) : list Text.nline :=
  let block := fun (ind' : nat) =>
    fix block (ss : list stmt) : list Text.nline :=
      match ss with
      | [] => []
      | s' :: ss' => unparse_stmt ind' s' ++ block ss'
      end in
  match s with
  | Import l m => [(l, spaces ind +:+ "import " +:+ m)]
  | Assign l x e => [(l, spaces ind +:+ x +:+ " = " +:+ unparse_expr e)]
  | Expr l e => [(l, spaces ind +:+ unparse_expr e)]
  | Raise l e => [(l, spaces ind +:+ "raise " +:+ unparse_expr e)]
  | If l t body orelse =>
      (l, spaces ind +:+ "if " +:+ unparse_expr t +:+ ":")
      :: block (4 + ind) body
      ++ match orelse with
         | [] => []
         | _ => (0, spaces ind +:+ "else:") :: block (4 + ind) orelse
         end
  | Try l body hs =>
      (l, spaces ind +:+ "try:")
      :: block (4 + ind) body
      ++ (fix handlers (hs : list handler) : list Text.nline :=
            match hs with
            | [] => []
            | ExceptHandler hl ty nm hbody :: hs' =>
                (hl, spaces ind +:+ "except " +:+ unparse_expr ty
                     +:+ match nm with Some x => " as " +:+ x | None => "" end +:+ ":")
                :: block (4 + ind) hbody ++ handlers hs'
            end) hs
  end.

Definition unparse (m : list stmt) : list Text.nline :=
  flat_map (unparse_stmt 0) m.

(** *** Names *)

(** The names an expression reads, in evaluation order. *)
Fixpoint loads (e : expr) : list string :=
  match e with
  | Name x => [x]
  | Str _ _ | Num _ => []
  | FormattedValue e' => loads e'
  | JoinedStr _ values =>
      (fix go (vs : list expr) : list string :=
         match vs with [] => [] | v :: vs' => loads v ++ go vs' end) values
  | Attribute e' _ => loads e'
  | Call f args kws =>
      loads f
      ++ (fix go (es : list expr) : list string :=
            match es with [] => [] | e' :: es' => loads e' ++ go es' end) args
      ++ (fix go (ks : list (string * expr)) : list string :=
            match ks with [] => [] | (_, e') :: ks' => loads e' ++ go ks' end) kws
  end.

(** Every statement of a block, nested ones included, in source order. *)
Fixpoint substmts (s : stmt) : list stmt :=
  let block :=
    fix block (ss : list stmt) : list stmt :=
      match ss with [] => [] | s' :: ss' => substmts s' ++ block ss' end in
  s ::
  match s with
  | If _ _ body orelse => block body ++ block orelse
  | Try _ body hs =>
      block body
      ++ (fix handlers (hs : list handler) : list stmt :=
            match hs with
            | [] => []
            | ExceptHandler _ _ _ hbody :: hs' => block hbody ++ handlers hs'
            end) hs
  | _ => []
  end.

Definition all_stmts (m : list stmt) : list stmt := flat_map substmts m.

Definition stmt_line (s : stmt) : nat :=
  match s with
  | Import l _ | Assign l _ _ | Expr l _ | Raise l _ | If l _ _ _ | Try l _ _ => l
  end.

(** The names a statement reads itself (not its nested statements), with the
    line of the read: an [except] clause reads its type on its own line. *)
Definition reads (s : stmt) : list (nat * string) :=
  match s with
  | Import _ _ => []
  | Assign l _ e | Expr l e | Raise l e | If l e _ _ => map (pair l) (loads e)
  | Try _ _ hs =>
      flat_map (fun h => match h with
                         | ExceptHandler hl ty _ _ => map (pair hl) (loads ty)
                         end) hs
  end.

(** The names a statement binds itself. *)
Definition binds (s : stmt) : list (nat * string) :=
  match s with
  | Import l m => [(l, m)]
  | Assign l x _ => [(l, x)]
  | Try _ _ hs =>
      flat_map (fun h => match h with
                         | ExceptHandler hl _ (Some x) _ => [(hl, x)]
                         | ExceptHandler _ _ None _ => []
                         end) hs
  | _ => []
  end.

Definition imports (m : list stmt) : list string :=
  flat_map (fun s => match s with Import _ x => [x] | _ => [] end) (all_stmts m).

Definition referenced (m : list stmt) : list (nat * string) :=
  flat_map reads (all_stmts m).

Definition defined (m : list stmt) : list (nat * string) :=
  flat_map binds (all_stmts m).

(** The exception classes among Python's built-in names. *)
Definition builtin_exceptions : list string :=
  [ "BaseException"; "Exception"; "ArithmeticError"; "AssertionError"
  ; "AttributeError"; "BlockingIOError"; "BrokenPipeError"; "BufferError"
  ; "ChildProcessError"; "ConnectionAbortedError"; "ConnectionError"
  ; "ConnectionRefusedError"; "ConnectionResetError"; "EOFError"
  ; "EnvironmentError"; "FileExistsError"; "FileNotFoundError"
  ; "FloatingPointError"; "GeneratorExit"; "IOError"; "ImportError"
  ; "IndentationError"; "IndexError"; "InterruptedError"; "IsADirectoryError"
  ; "KeyError"; "KeyboardInterrupt"; "LookupError"; "MemoryError"
  ; "ModuleNotFoundError"; "NameError"; "NotADirectoryError"
  ; "NotImplementedError"; "OSError"; "OverflowError"; "PermissionError"
  ; "ProcessLookupError"; "RecursionError"; "ReferenceError"; "RuntimeError"
  ; "StopAsyncIteration"; "StopIteration"; "SyntaxError"; "SystemError"
  ; "SystemExit"; "TabError"; "TimeoutError"; "TypeError"
  ; "UnboundLocalError"; "UnicodeDecodeError"; "UnicodeEncodeError"
  ; "UnicodeError"; "UnicodeTranslateError"; "ValueError"
  ; "ZeroDivisionError" ].

(** The other built-in names: functions, types and constants. *)
Definition builtin_functions : list string :=
  [ "abs"; "aiter"; "all"; "anext"; "any"; "ascii"; "bin"; "bool"
  ; "breakpoint"; "bytearray"; "bytes"; "callable"; "chr"; "classmethod"
  ; "compile"; "complex"; "delattr"; "dict"; "dir"; "divmod"; "enumerate"
  ; "eval"; "exec"; "filter"; "float"; "format"; "frozenset"; "getattr"
  ; "globals"; "hasattr"; "hash"; "help"; "hex"; "id"; "input"; "int"
  ; "isinstance"; "issubclass"; "iter"; "len"; "list"; "locals"; "map"
  ; "max"; "memoryview"; "min"; "next"; "object"; "oct"; "open"; "ord"
  ; "pow"; "print"; "property"; "range"; "repr"; "reversed"; "round"
  ; "set"; "setattr"; "slice"; "sorted"; "staticmethod"; "str"; "sum"
  ; "super"; "tuple"; "type"; "vars"; "zip"; "__import__"
  ; "Ellipsis"; "NotImplemented"; "__debug__"; "__name__"; "__doc__"
  ; "copyright"; "credits"; "exit"; "license"; "quit" ].

Definition mem := Text.mem.

Definition is_builtin (x : string) : bool :=
  mem x builtin_exceptions || mem x builtin_functions.

(** First reads of the names that the module reads, never binds, and that
    are not built in: in order of first read. *)
Fixpoint first_reads (seen : list string) (rs : list (nat * string))
  : list (nat * string) :=
  match rs with
  | [] => []
  | (l, x) :: rs' =>
      if mem x seen then first_reads seen rs'
      else (l, x) :: first_reads (x :: seen) rs'
  end.

Definition unbound (m : list stmt) : list (nat * string) :=
  List.filter (fun r : nat * string =>
                 negb (mem r.2 (map snd (defined m))) && negb (is_builtin r.2))
              (first_reads [] (referenced m)).

(** The name an expression evaluates first: the callee of a call, the
    object of an attribute. *)
Fixpoint head_name (e : expr) : option string :=
  match e with
  | Name x => Some x
  | Attribute e' _ => head_name e'
  | Call f _ _ => head_name f
  | _ => None
  end.

(** The expression a statement evaluates first. *)
Definition stmt_expr (s : stmt) : option expr :=
  match s with
  | Assign _ _ e | Expr _ e | Raise _ e | If _ e _ _ => Some e
  | Import _ _ | Try _ _ _ => None
  end.

(** *** Running the module *)

Inductive value :=
| VNone
| VStr (s : string)
| VNum (n : nat)
| VModule (m : string)
| VBuiltin (b : string)
| VExc (cls : string) (args : list value)
| VObject (o : nat).

(** A raised exception: its class, its arguments, the line that raised it. *)
Record exc := Exc { exc_class : string; exc_args : list value; exc_line : nat }.

(** What lies outside the file: attribute access and calls on objects the
    file does not define, and how such objects test and print.  Each may
    raise, by class and arguments, and each may change the world. *)
Record world (W : Type) := World
  { w_getattr : W -> value -> string -> W * (value + string * list value)
  ; w_call : W -> value -> list value -> list (string * value)
             -> W * (value + string * list value)
  ; w_truth : W -> value -> W * (bool + string * list value)
  ; w_format : W -> value -> W * (string + string * list value)
  ; w_subclass : string -> string -> bool }.

Arguments w_getattr {W}.
Arguments w_call {W}.
Arguments w_truth {W}.
Arguments w_format {W}.
Arguments w_subclass {W}.

(** The module's globals and the world. *)
Record state (W : Type) := State { ns : gmap string value; wd : W }.

Arguments State {W}.
Arguments ns {W}.
Arguments wd {W}.

Definition name_error (l : nat) (x : string) : exc :=
  Exc "NameError" [VStr ("name '" +:+ x +:+ "' is not defined")] l.

Definition type_error (l : nat) (msg : string) : exc :=
  Exc "TypeError" [VStr msg] l.

(** Globals first, then the built-in names. *)
Definition lookup_name (g : gmap string value) (x : string) : option value :=
  match g !! x with
  | Some v => Some v
  | None => if is_builtin x then Some (VBuiltin x) else None
  end.

(** The classes that [except Exception] lets through. *)
Definition exits : list string :=
  [ "BaseException"; "SystemExit"; "KeyboardInterrupt"; "GeneratorExit" ].

Section Run.

Context {W : Type} (wld : world W).

Definition stamp {A} (l : nat) (w : W) (g : gmap string value)
    (r : A + string * list value) : state W * (A + exc) :=
  match r with
  | inl a => (State g w, inl a)
  | inr (c, args) => (State g w, inr (Exc c args l))
  end.

(** Calling a built-in exception class makes an instance; any other call is
    the world's. *)
Definition call_value (l : nat) (st : state W) (f : value) (args : list value)
    (kws : list (string * value)) : state W * (value + exc) :=
  match f with
  | VBuiltin c =>
      if mem c builtin_exceptions
      then match kws with
           | [] => (st, inl (VExc c args))
           | _ => (st, inr (type_error l (c +:+ "() takes no keyword arguments")))
           end
      else let '(w, r) := w_call wld (wd st) f args kws in stamp l w (ns st) r
  | _ => let '(w, r) := w_call wld (wd st) f args kws in stamp l w (ns st) r
  end.

Definition format_value (l : nat) (st : state W) (v : value)
  : state W * (value + exc) :=
  match v with
  | VStr s => (st, inl (VStr s))
  | _ => let '(w, r) := w_format wld (wd st) v in
         match stamp l w (ns st) r with
         | (st', inl s) => (st', inl (VStr s))
         | (st', inr x) => (st', inr x)
         end
  end.

(** Expressions: the function before its arguments, arguments left to right,
    positional before keyword. *)
Fixpoint eval (l : nat) (e : expr) (st : state W) : state W * (value + exc) :=
  match e with
  | Name x =>
      match lookup_name (ns st) x with
      | Some v => (st, inl v)
      | None => (st, inr (name_error l x))
      end
  | Str _ s => (st, inl (VStr s))
  | Num n => (st, inl (VNum n))
  | FormattedValue e' =>
      match eval l e' st with
      | (st1, inl v) => format_value l st1 v
      | (st1, inr x) => (st1, inr x)
      end
  | JoinedStr _ values =>
      (fix go (vs : list expr) (acc : string) (st : state W)
         : state W * (value + exc) :=
         match vs with
         | [] => (st, inl (VStr acc))
         | v :: vs' =>
             match eval l v st with
             | (st1, inl (VStr s)) => go vs' (acc +:+ s) st1
             | (st1, inl _) => (st1, inr (type_error l "expected str instance"))
             | (st1, inr x) => (st1, inr x)
             end
         end) values "" st
  | Attribute e' a =>
      match eval l e' st with
      | (st1, inl v) =>
          let '(w, r) := w_getattr wld (wd st1) v a in stamp l w (ns st1) r
      | (st1, inr x) => (st1, inr x)
      end
  | Call f args kws =>
      match eval l f st with
      | (st1, inl fv) =>
          match (fix go (es : list expr) (st : state W)
                   : state W * (list value + exc) :=
                   match es with
                   | [] => (st, inl [])
                   | e' :: es' =>
                       match eval l e' st with
                       | (st', inl v) =>
                           match go es' st' with
                           | (st'', inl vs) => (st'', inl (v :: vs))
                           | (st'', inr x) => (st'', inr x)
                           end
                       | (st', inr x) => (st', inr x)
                       end
                   end) args st1 with
          | (st2, inl vs) =>
              match (fix go (ks : list (string * expr)) (st : state W)
                       : state W * (list (string * value) + exc) :=
                       match ks with
                       | [] => (st, inl [])
                       | (k, e') :: ks' =>
                           match eval l e' st with
                           | (st', inl v) =>
                               match go ks' st' with
                               | (st'', inl kvs) => (st'', inl ((k, v) :: kvs))
                               | (st'', inr x) => (st'', inr x)
                               end
                           | (st', inr x) => (st', inr x)
                           end
                       end) kws st2 with
              | (st3, inl kvs) => call_value l st3 fv vs kvs
              | (st3, inr x) => (st3, inr x)
              end
          | (st2, inr x) => (st2, inr x)
          end
      | (st1, inr x) => (st1, inr x)
      end
  end.

Definition truth (l : nat) (st : state W) (v : value) : state W * (bool + exc) :=
  match v with
  | VNone => (st, inl false)
  | VStr s => (st, inl (negb (String.eqb s "")))
  | VNum n => (st, inl (negb (Nat.eqb n 0)))
  | VModule _ | VBuiltin _ | VExc _ _ => (st, inl true)
  | VObject _ => let '(w, r) := w_truth wld (wd st) v in stamp l w (ns st) r
  end.

(** [c] is class [d] or derives from it. *)
Definition subclass (c d : string) : bool :=
  String.eqb c d
  || String.eqb d "BaseException"
  || (String.eqb d "Exception" && negb (mem c exits))
  || w_subclass wld c d.

(** Statements.  [None] is normal completion.  The name an [except] clause
    binds is deleted when the clause is left, either way. *)
Fixpoint exec (s : stmt) (st : state W) : state W * option exc :=
  let block :=
    fix block (ss : list stmt) (st : state W) : state W * option exc :=
      match ss with
      | [] => (st, None)
      | s' :: ss' =>
          match exec s' st with
          | (st', None) => block ss' st'
          | (st', Some x) => (st', Some x)
          end
      end in
  match s with
  | Import _ m => (State (<[m := VModule m]> (ns st)) (wd st), None)
  | Assign l x e =>
      match eval l e st with
      | (st1, inl v) => (State (<[x := v]> (ns st1)) (wd st1), None)
      | (st1, inr x) => (st1, Some x)
      end
  | Expr l e =>
      match eval l e st with
      | (st1, inl _) => (st1, None)
      | (st1, inr x) => (st1, Some x)
      end
  | Raise l e =>
      match eval l e st with
      | (st1, inl (VExc c args)) => (st1, Some (Exc c args l))
      | (st1, inl (VBuiltin c)) =>
          if mem c builtin_exceptions then (st1, Some (Exc c [] l))
          else (st1, Some (type_error l "exceptions must derive from BaseException"))
      | (st1, inl _) =>
          (st1, Some (type_error l "exceptions must derive from BaseException"))
      | (st1, inr x) => (st1, Some x)
      end
  | If l t body orelse =>
      match eval l t st with
      | (st1, inl v) =>
          match truth l st1 v with
          | (st2, inl true) => block body st2
          | (st2, inl false) => block orelse st2
          | (st2, inr x) => (st2, Some x)
          end
      | (st1, inr x) => (st1, Some x)
      end
  | Try _ body hs =>
      match block body st with
      | (st1, None) => (st1, None)
      | (st1, Some x) =>
          (fix handlers (hs : list handler) (st : state W) : state W * option exc :=
             match hs with
             | [] => (st, Some x)
             | ExceptHandler hl ty nm hbody :: hs' =>
                 match eval hl ty st with
                 | (st2, inl (VBuiltin d)) =>
                     if subclass (exc_class x) d then
                       let bound :=
                         match nm with
                         | Some n => <[n := VExc (exc_class x) (exc_args x)]> (ns st2)
                         | None => ns st2
                         end in
                       let '(st3, r) := block hbody (State bound (wd st2)) in
                       (State match nm with
                              | Some n => delete n (ns st3)
                              | None => ns st3
                              end (wd st3), r)
                     else handlers hs' st2
                 | (st2, inl _) =>
                     (st2, Some (type_error hl "catching classes that do not inherit from BaseException is not allowed"))
                 | (st2, inr y) => (st2, Some y)
                 end
             end) hs st1
      end
  end.

Fixpoint exec_block (ss : list stmt) (st : state W) : state W * option exc :=
  match ss with
  | [] => (st, None)
  | s :: ss' =>
      match exec s st with
      | (st', None) => exec_block ss' st'
      | (st', Some x) => (st', Some x)
      end
  end.

(** The module run from empty globals. *)
Definition run (m : list stmt) (w : W) : state W * option exc :=
  exec_block m (State ∅ w).

End Run.

(** *** The loops of [eval], by name *)

Section Loops.

Context {W : Type}.
Variable ev : expr -> state W -> state W * (value + exc).

(** Positional arguments, left to right, up to the first that raises. *)
Definition eval_args : list expr -> state W -> state W * (list value + exc) :=
  fix go (es : list expr) (st : state W) : state W * (list value + exc) :=
    match es with
    | [] => (st, inl [])
    | e' :: es' =>
        match ev e' st with
        | (st', inl v) =>
            match go es' st' with
            | (st'', inl vs) => (st'', inl (v :: vs))
            | (st'', inr x) => (st'', inr x)
            end
        | (st', inr x) => (st', inr x)
        end
    end.

(** Keyword arguments, likewise. *)
Definition eval_keywords
  : list (string * expr) -> state W -> state W * (list (string * value) + exc) :=
  fix go (ks : list (string * expr)) (st : state W)
    : state W * (list (string * value) + exc) :=
    match ks with
    | [] => (st, inl [])
    | (k, e') :: ks' =>
        match ev e' st with
        | (st', inl v) =>
            match go ks' st' with
            | (st'', inl kvs) => (st'', inl ((k, v) :: kvs))
            | (st'', inr x) => (st'', inr x)
            end
        | (st', inr x) => (st', inr x)
        end
    end.

(** The parts of an f-string, joined as they are evaluated. *)
Definition eval_parts (l : nat)
  : list expr -> string -> state W -> state W * (value + exc) :=
  fix go (vs : list expr) (acc : string) (st : state W) : state W * (value + exc) :=
    match vs with
    | [] => (st, inl (VStr acc))
    | v :: vs' =>
        match ev v st with
        | (st1, inl (VStr s)) => go vs' (acc +:+ s) st1
        | (st1, inl _) => (st1, inr (type_error l "expected str instance"))
        | (st1, inr x) => (st1, inr x)
        end
    end.

End Loops.

(** What evaluating an expression on line [l] from [st] keeps: the globals
    stay as they are, and what is raised is raised on line [l]. *)
Definition keeps {W A : Type} (l : nat) (st : state W) (p : state W * (A + exc))
  : Prop :=
  ns p.1 = ns st /\ forall x, p.2 = inr x -> exc_line x = l.

(** *** Induction over expressions, through the lists they hold *)

Section ExprInduction.

Variable P : expr -> Prop.
Hypothesis HName : forall x, P (Name x).
Hypothesis HStr : forall k s, P (Str k s).
Hypothesis HNum : forall n, P (Num n).
Hypothesis HFormattedValue : forall e, P e -> P (FormattedValue e).
Hypothesis HJoinedStr : forall k vs, Forall P vs -> P (JoinedStr k vs).
Hypothesis HAttribute : forall e a, P e -> P (Attribute e a).
Hypothesis HCall : forall f args kws,
  P f -> Forall P args -> Forall (fun kv : string * expr => P kv.2) kws ->
  P (Call f args kws).

Fixpoint expr_induction (e : expr) : P e :=
  match e with
  | Name x => HName x
  | Str k s => HStr k s
  | Num n => HNum n
  | FormattedValue e' => HFormattedValue e' (expr_induction e')
  | JoinedStr k vs =>
      HJoinedStr k vs
        ((fix go (vs : list expr) : Forall P vs :=
            match vs with
            | [] => @List.Forall_nil _ P
            | v :: vs' => @List.Forall_cons _ P v vs' (expr_induction v) (go vs')
            end) vs)
  | Attribute e' a => HAttribute e' a (expr_induction e')
  | Call f args kws =>
      HCall f args kws (expr_induction f)
        ((fix go (es : list expr) : Forall P es :=
            match es with
            | [] => @List.Forall_nil _ P
            | e' :: es' => @List.Forall_cons _ P e' es' (expr_induction e') (go es')
            end) args)
        ((fix go (ks : list (string * expr))
            : Forall (fun kv : string * expr => P kv.2) ks :=
            match ks with
            | [] => @List.Forall_nil _ _
            | (k, e') :: ks' =>
                @List.Forall_cons _ (fun kv : string * expr => P kv.2)
                                  (k, e') ks' (expr_induction e') (go ks')
            end) kws)
  end.

End ExprInduction.

(** *** The loops of [exec], by name *)

Section Blocks.

Context {W : Type} (wld : world W).
Variable ex : stmt -> state W -> state W * option exc.

(** A block: statement after statement, up to the first that raises. *)
Definition run_block : list stmt -> state W -> state W * option exc :=
  fix block (ss : list stmt) (st : state W) : state W * option exc :=
    match ss with
    | [] => (st, None)
    | s' :: ss' =>
        match ex s' st with
        | (st', None) => block ss' st'
        | (st', Some x) => (st', Some x)
        end
    end.

(** The [except] clauses tried in order on the exception [x]. *)
Definition run_handlers (x : exc)
  : list handler -> state W -> state W * option exc :=
  fix handlers (hs : list handler) (st : state W) : state W * option exc :=
    match hs with
    | [] => (st, Some x)
    | ExceptHandler hl ty nm hbody :: hs' =>
        match eval wld hl ty st with
        | (st2, inl (VBuiltin d)) =>
            if subclass wld (exc_class x) d then
              let bound :=
                match nm with
                | Some n => <[n := VExc (exc_class x) (exc_args x)]> (ns st2)
                | None => ns st2
                end in
              let '(st3, r) := run_block hbody (State bound (wd st2)) in
              (State match nm with
                     | Some n => delete n (ns st3)
                     | None => ns st3
                     end (wd st3), r)
            else handlers hs' st2
        | (st2, inl _) =>
            (st2, Some (type_error hl "catching classes that do not inherit from BaseException is not allowed"))
        | (st2, inr y) => (st2, Some y)
        end
    end.

End Blocks.

(** The statements of the bodies of [except] clauses, nested ones included. *)
Definition handler_stmts (hs : list handler) : list stmt :=
  flat_map (fun h => match h with
                     | ExceptHandler _ _ _ hbody => all_stmts hbody
                     end) hs.

(** *** Induction over statements, through the blocks they hold *)

Section StmtInduction.

Variable P : stmt -> Prop.
Hypothesis HImport : forall l m, P (Import l m).
Hypothesis HAssign : forall l x e, P (Assign l x e).
Hypothesis HExpr : forall l e, P (Expr l e).
Hypothesis HRaise : forall l e, P (Raise l e).
Hypothesis HIf : forall l t body orelse,
  Forall P body -> Forall P orelse -> P (If l t body orelse).
Hypothesis HTry : forall l body hs,
  Forall P body ->
  Forall (fun h => match h with ExceptHandler _ _ _ hbody => Forall P hbody end) hs ->
  P (Try l body hs).

Fixpoint stmt_induction (s : stmt) : P s :=
  let block :=
    fix block (ss : list stmt) : Forall P ss :=
      match ss with
      | [] => @List.Forall_nil _ P
      | s' :: ss' => @List.Forall_cons _ P s' ss' (stmt_induction s') (block ss')
      end in
  match s with
  | Import l m => HImport l m
  | Assign l x e => HAssign l x e
  | Expr l e => HExpr l e
  | Raise l e => HRaise l e
  | If l t body orelse => HIf l t body orelse (block body) (block orelse)
  | Try l body hs =>
      HTry l body hs (block body)
        ((fix handlers (hs : list handler)
            : Forall (fun h => match h with
                               | ExceptHandler _ _ _ hbody => Forall P hbody
                               end) hs :=
            match hs with
            | [] => @List.Forall_nil _ _
            | ExceptHandler hl ty nm hbody :: hs' =>
                @List.Forall_cons _
                  (fun h => match h with
                            | ExceptHandler _ _ _ hbody => Forall P hbody
                            end)
                  (ExceptHandler hl ty nm hbody) hs' (block hbody) (handlers hs')
            end) hs)
  end.

End StmtInduction.

End Py.

(** ** What is said of the file *)

Module Fixture.

Import Text.

(** The seven categories, in the order the patterns are listed. *)
Definition categories : list string :=
  [ "Network Call"; "Debug Statement"; "Unfinished Block"; "Database Operation"
  ; "Error Handling"; "Authentication"; "Configuration" ].

(** How often [p] stands in the whole file. *)
Definition occurrences (p : string) (ls : list string) : nat :=
  fold_right Nat.add 0 (map (fun s => count_occurrences (chars p) (chars s)) ls).

(** The paragraphs of a file that no annotation introduces. *)
Definition unannotated (ls : list string) : list (list nline) :=
  List.filter (fun p => match group_of p with Some _ => false | None => true end)
              (paragraphs (numbered ls)).

(** No line is headed by a branching, looping or exception-handling keyword. *)
Definition no_control_flow (ls : list string) : Prop :=
  forall x : nline, x ∈ numbered ls -> control_keyword x.2 = None.

(** The lines of a file that are indented, with their indentation. *)
Definition indented (ls : list string) : list (nat * nat) :=
  omap (fun x : nline =>
          if is_blank x.2 || Nat.eqb (indent x.2) 0 then None
          else Some (x.1, indent x.2)) (numbered ls).

(** A group that holds a line of code, not comments only. *)
Definition has_code (g : group) : bool :=
  existsb (fun x : nline => is_code x.2) g.(g_body).

Definition every_group_has_code (ls : list string) : Prop :=
  Forall (fun g => has_code g = true) (groups ls).

(** The words that would make the file a component with an interface of its
    own: an entry point, a command line, a socket, a file or a store. *)
Definition interface_words : list string :=
  [ "__name__"; "__main__"; "argparse"; "argv"; "sys"; "input"; "click"
  ; "open"; "socket"; "listen"; "bind"; "struct"; "pickle"; "sqlite3"
  ; "dump"; "dumps"; "load"; "loads"; "write" ].

Definition is_import_stmt (s : Py.stmt) : bool :=
  match s with Py.Import _ _ => true | _ => false end.

Definition is_try (s : Py.stmt) : bool :=
  match s with Py.Try _ _ _ => true | _ => false end.

Definition is_raise (s : Py.stmt) : bool :=
  match s with Py.Raise _ _ => true | _ => false end.

Definition is_compound (s : Py.stmt) : bool :=
  match s with Py.Try _ _ _ | Py.If _ _ _ _ => true | _ => false end.

(** The one [try] statement of the file. *)
Definition the_try : Py.stmt :=
  Py.Try 26
    [ Py.Expr 27 (Py.call0 (Py.Name "risky_operation")) ]
    [ Py.ExceptHandler 28 (Py.Name "Exception") (Some "e")
        [ Py.Expr 29 (Py.Call (Py.Name "print")
            [Py.JoinedStr Py.Double
               [Py.Str Py.Double "Error: "; Py.FormattedValue (Py.Name "e")]] [])
        ; Py.Raise 30 (Py.Call (Py.Name "ValueError")
                         [Py.Str Py.Double "Custom error"] []) ] ].

(** The one [if] statement of the file. *)
Definition the_if : Py.stmt :=
  Py.If 34 (Py.call0 (Py.Attribute (Py.Name "user") "is_authenticated"))
    [ Py.Expr 35 (Py.Call (Py.Name "login_user") [Py.Name "user"] []) ]
    [].

(** The one [raise] statement of the file. *)
Definition the_raise : Py.stmt :=
  Py.Raise 30 (Py.Call (Py.Name "ValueError") [Py.Str Py.Double "Custom error"] []).

(** The lines headed by one of the keywords [ks], with the keyword. *)
Definition keyword_lines (ks : list string) (ls : list string) : list (nat * string) :=
  omap (fun x : nline =>
          match head_word x.2 with
          | Some w => if Text.mem w ks then Some (x.1, w) else None
          | None => None
          end) (numbered ls).

(** Line [n] is a line of one of the annotated groups. *)
Definition in_a_group (ls : list string) (n : nat) : bool :=
  existsb (fun g => existsb (Nat.eqb n) (group_lines g)) (groups ls).

(** The names said to be read without ever being bound. *)
Definition named_unbound : list string :=
  [ "http"; "console"; "debugger"; "User"; "users"; "risky_operation"
  ; "generate_jwt_token"; "user_id"; "user"; "login_user"; "hash_password"
  ; "password"; "os"; "load_config_file"; "get_app_settings" ].

(** [x] is read somewhere in the module and bound nowhere in it. *)
Definition never_bound (m : list Py.stmt) (x : string) : Prop :=
  x ∈ map snd (Py.referenced m) /\ x ∉ map snd (Py.defined m).

(** The right-hand side of line 5. *)
Definition line5 : Py.expr :=
  Py.Call (Py.Attribute (Py.Name "requests") "get")
          [Py.Str Py.Single "https://api.example.com"] [].

(** The globals once the two imports have run. *)
Definition imported : gmap string Py.value :=
  <["json" := Py.VModule "json"]> (<["requests" := Py.VModule "requests"]> ∅).

(** A world in which every attribute is there and every call returns. *)
Definition quiet : Py.world unit :=
  Py.World unit
    (fun w _ _ => (w, inl (Py.VObject 0)))
    (fun w _ _ _ => (w, inl (Py.VObject 1)))
    (fun w _ => (w, inl true))
    (fun w _ => (w, inl "<object>"))
    (fun _ _ => false).

(** A world without a network: every call raises [ConnectionError]. *)
Definition offline : Py.world unit :=
  Py.World unit
    (fun w _ _ => (w, inl (Py.VObject 0)))
    (fun w _ _ _ => (w, inr ("ConnectionError", [Py.VStr "no route to host"])))
    (fun w _ => (w, inl true))
    (fun w _ => (w, inl "<object>"))
    (fun _ _ => false).

(** The comment lines that are not annotations. *)
Definition plain_comments (ls : list string) : list nline :=
  List.filter (fun x : nline =>
                 is_comment x.2
                 && match annotation x.2 with Some _ => false | None => true end)
              (numbered ls).

(** Category, number of lines and presence of code, group by group. *)
Definition group_summary (ls : list string) : list (string * nat * bool) :=
  map (fun g => (g.(g_category), length g.(g_body), has_code g)) (groups ls).

(** The four markers of unfinished work. *)
Definition unfinished_markers : list string := [ "TODO"; "FIXME"; "HACK"; "NOTE" ].

(** The call of line 27, the body of the [try]. *)
Definition risky : Py.expr := Py.call0 (Py.Name "risky_operation").

(** The test of line 34. *)
Definition is_authenticated : Py.expr :=
  Py.call0 (Py.Attribute (Py.Name "user") "is_authenticated").

(** What line 30 raises. *)
Definition custom_error : Py.exc :=
  Py.Exc "ValueError" [Py.VStr "Custom error"] 30.

(** The names the module assigns, imports or binds in an [except] clause. *)
Definition targets : list string :=
  [ "requests"; "json"; "response"; "fetch_data"; "user"; "query"; "e"
  ; "token"; "password_hash"; "api_key"; "config"; "settings" ].


(** None of the names that the module never binds is bound in [g]. *)
Definition all_unbound (g : gmap string Py.value) : bool :=
  forallb (fun x => match Py.lookup_name g x with None => true | Some _ => false end)
          (map snd (Py.unbound Py.test_python)).

(** The line and the name of a statement that starts by reading a name the
    module never binds. *)
Definition failing_head (s : Py.stmt) : option (nat * string) :=
  match Py.stmt_expr s with
  | Some e =>
      match Py.head_name e with
      | Some x =>
          if Py.mem x (map snd (Py.unbound Py.test_python))
          then Some (Py.stmt_line s, x) else None
      | None => None
      end
  | None => None
  end.

(** Globals in which the functions of the samples are there, as objects. *)
Definition provided : gmap string Py.value :=
  <["user" := Py.VObject 2]> (<["risky_operation" := Py.VObject 3]> imported).

End Fixture.

(** ** Facts about the scanners *)

Section TextFacts.

Import Text.

Lemma chars_app (a b : string) : chars (a +:+ b) = chars a ++ chars b.
Proof. induction a as [|x a IH]; simpl; [reflexivity | by rewrite IH]. Qed.

Lemma text_app (a b : list ascii) : text (a ++ b) = text a +:+ text b.
Proof. induction a as [|x a IH]; simpl; [reflexivity | by rewrite IH]. Qed.

Lemma chars_inj (a b : string) : chars a = chars b -> a = b.
Proof.
  intros H. rewrite <- (string_of_list_ascii_of_string a),
    <- (string_of_list_ascii_of_string b). by rewrite H.
Qed.

Lemma rev_cons' {A} (a : A) (l : list A) : rev (a :: l) = rev l ++ [a].
Proof. reflexivity. Qed.

Lemma elem_of_rev' {A} (x : A) (l : list A) : x ∈ rev l <-> x ∈ l.
Proof. rewrite !list_elem_of_In. symmetry. apply in_rev. Qed.

Lemma strip_prefix_app (p r : list ascii) : strip_prefix p (p ++ r) = Some r.
Proof.
  induction p as [|a p IH]; simpl; [reflexivity|].
  by rewrite Ascii.eqb_refl.
Qed.

Lemma strip_prefix_Some (p l r : list ascii) :
  strip_prefix p l = Some r -> l = p ++ r.
Proof.
  revert l; induction p as [|a p IH]; intros l; simpl.
  - by intros [= ->].
  - destruct l as [|b l]; [discriminate|].
    destruct (Ascii.eqb a b) eqn:E; [|discriminate].
    apply Ascii.eqb_eq in E as ->. intros H. by rewrite (IH _ H).
Qed.

Lemma upto_quote_split (l c r : list ascii) :
  upto_quote l = (c, r) ->
  l = c ++ r /\ (dq ∉ c) /\ (r = [] \/ exists r', r = dq :: r').
Proof.
  revert c r; induction l as [|a l IH]; intros c r; simpl.
  - intros [= <- <-]. split_and!; [done | apply not_elem_of_nil | by left].
  - destruct (Ascii.eqb a dq) eqn:E.
    + apply Ascii.eqb_eq in E as ->. intros [= <- <-].
      split_and!; [done | apply not_elem_of_nil | right; by eexists].
    + destruct (upto_quote l) as [c' r'] eqn:U. intros [= <- <-].
      destruct (IH _ _ eq_refl) as (-> & Hc & Hr).
      split_and!; [done | | done].
      apply not_elem_of_cons; split; [|done].
      intros <-. by rewrite Ascii.eqb_refl in E.
Qed.

Lemma upto_quote_app (c r : list ascii) :
  dq ∉ c -> upto_quote (c ++ dq :: r) = (c, dq :: r).
Proof.
  induction c as [|a c IH]; simpl; intros Hc.
  - reflexivity.
  - apply not_elem_of_cons in Hc as [Ha Hc].
    destruct (Ascii.eqb a dq) eqn:E.
    + apply Ascii.eqb_eq in E. congruence.
    + by rewrite (IH Hc).
Qed.

(** What [annotation_chars] accepts has the shape of an annotation. *)
Lemma annotation_chars_sound (l d c : list ascii) :
  annotation_chars l = Some (d, c) ->
  l = chars "# " ++ d ++ tagged_as ++ dq :: c ++ [dq] /\ (dq ∉ c).
Proof.
  unfold annotation_chars. intros H.
  destruct (rev l) as [|a r] eqn:Hl; [discriminate|].
  destruct (Ascii.eqb a dq) eqn:Ea; [|discriminate].
  apply Ascii.eqb_eq in Ea as ->.
  destruct (upto_quote r) as [c' r1] eqn:U.
  destruct (upto_quote_split _ _ _ U) as (-> & Hc & Hr).
  destruct r1 as [|b r2]; [discriminate|].
  destruct Hr as [[=] | (r' & [= -> <-])].
  destruct (strip_prefix (rev tagged_as) r2) as [r3|] eqn:S1; [|discriminate].
  apply strip_prefix_Some in S1 as ->.
  destruct (strip_prefix (chars "# ") (rev r3)) as [d'|] eqn:S2; [|discriminate].
  apply strip_prefix_Some in S2. injection H as <- <-.
  split.
  - rewrite <- (rev_involutive l), Hl.
    rewrite rev_cons', rev_app_distr, rev_cons', rev_app_distr, rev_involutive, S2.
    by rewrite <- !app_assoc.
  - by rewrite elem_of_rev'.
Qed.

(** And every line of that shape is accepted, with that very description
    and category. *)
Lemma annotation_chars_complete (d c : list ascii) :
  dq ∉ c ->
  annotation_chars (chars "# " ++ d ++ tagged_as ++ dq :: c ++ [dq]) = Some (d, c).
Proof.
  intros Hc. unfold annotation_chars.
  replace (rev (chars "# " ++ d ++ tagged_as ++ dq :: c ++ [dq]))
    with (dq :: rev c ++ dq :: rev tagged_as ++ rev (chars "# " ++ d)).
  2:{ rewrite (app_assoc (chars "# ") d), (rev_app_distr (chars "# " ++ d)).
      rewrite (rev_app_distr tagged_as), rev_cons', rev_unit.
      by rewrite <- !app_assoc. }
  rewrite Ascii.eqb_refl, upto_quote_app by (by rewrite elem_of_rev').
  rewrite strip_prefix_app, rev_involutive, strip_prefix_app.
  by rewrite rev_involutive.
Qed.

Lemma annotation_shape_iff (s d c : string) :
  annotation s = Some (d, c) <-> annotation_shape s d c.
Proof.
  unfold annotation, annotation_shape. split.
  - destruct (annotation_chars (chars s)) as [[d' c']|] eqn:A; [|discriminate].
    intros [= <- <-]. apply annotation_chars_sound in A as [Hs Hc].
    rewrite !list_ascii_of_string_of_list_ascii. split; [|done].
    apply chars_inj. rewrite Hs, !chars_app, !list_ascii_of_string_of_list_ascii.
    reflexivity.
  - intros [-> Hc]. rewrite !chars_app.
    change (chars q) with [dq].
    replace (chars "# " ++ chars d ++ chars " - should be tagged as "
               ++ [dq] ++ chars c ++ [dq])
      with (chars "# " ++ chars d ++ tagged_as ++ dq :: chars c ++ [dq]) by done.
    rewrite (annotation_chars_complete _ _ Hc).
    by rewrite !string_of_list_ascii_of_string.
Qed.

(** Numbering gives every line its position, counted from the start. *)
Lemma number_from_lookup (ls : list string) (k n : nat) (s : string) :
  (n, s) ∈ number_from k ls <-> k <= n /\ ls !! (n - k) = Some s.
Proof.
  revert k; induction ls as [|x ls IH]; intros k; simpl.
  - split; [by intros ?%elem_of_nil | by intros [_ [=]]].
  - rewrite elem_of_cons, IH. split.
    + intros [[= -> ->] | [Hk Hl]].
      * split; [lia|]. by rewrite Nat.sub_diag.
      * split; [lia|]. by replace (n - k) with (S (n - S k)) by lia.
    + intros [Hk Hl]. destruct (decide (n = k)) as [->|Hne].
      * left. rewrite Nat.sub_diag in Hl. simpl in Hl. congruence.
      * right. split; [lia|].
        by replace (n - k) with (S (n - S k)) in Hl by lia.
Qed.

Lemma number_from_fst (ls : list string) (k : nat) :
  map fst (number_from k ls) = seq k (length ls).
Proof.
  revert k; induction ls as [|x ls IH]; intros k; simpl; [done|].
  by rewrite IH.
Qed.

Lemma numbered_NoDup (ls : list string) : NoDup (numbered ls).
Proof.
  apply (NoDup_fmap_1 fst). unfold numbered. 
  change (fmap fst (number_from 1 ls)) with (map fst (number_from 1 ls)).
  rewrite number_from_fst. apply NoDup_seq.
Qed.

(** The paragraphs of a file are its non-blank lines, in order, cut at the
    blank ones. *)
Lemma paragraphs_go_concat (cur ls : list nline) :
  concat (paragraphs_go cur ls)
  = rev cur ++ List.filter (fun x : nline => negb (is_blank x.2)) ls.
Proof.
  revert cur; induction ls as [|x ls IH]; intros cur; simpl.
  - destruct cur; simpl; [done|]. by rewrite !app_nil_r.
  - destruct (is_blank x.2); simpl.
    + destruct cur; simpl; rewrite IH; simpl; [done|done].
    + rewrite IH. simpl. by rewrite <- app_assoc.
Qed.

Lemma paragraphs_concat (ls : list nline) :
  concat (paragraphs ls) = List.filter (fun x : nline => negb (is_blank x.2)) ls.
Proof. apply paragraphs_go_concat. Qed.

Lemma elem_of_concat {A} (x : A) (ps : list (list A)) :
  x ∈ concat ps <-> exists p, x ∈ p /\ p ∈ ps.
Proof.
  rewrite list_elem_of_In, in_concat. split.
  - intros (p & Hp & Hx). exists p. by rewrite !list_elem_of_In.
  - intros (p & Hx & Hp). exists p. by rewrite <- !list_elem_of_In.
Qed.

(** In a list of lists whose concatenation is duplicate-free, an element
    stands in one list only. *)
Lemma concat_NoDup_unique {A} (ps : list (list A)) (x : A) (i j : nat)
    (p p' : list A) :
  NoDup (concat ps) ->
  ps !! i = Some p -> ps !! j = Some p' -> x ∈ p -> x ∈ p' -> i = j.
Proof.
  revert i j; induction ps as [|p0 ps IH]; intros i j Hnd Hi Hj Hx Hx'.
  - by rewrite lookup_nil in Hi.
  - simpl in Hnd. apply NoDup_app in Hnd as (Hnd0 & Hdisj & Hnd).
    destruct i as [|i], j as [|j]; simpl in *.
    + done.
    + injection Hi as ->. exfalso. apply (Hdisj x Hx).
      apply elem_of_concat. exists p'. split; [done|].
      by eapply list_elem_of_lookup_2.
    + injection Hj as ->. exfalso. apply (Hdisj x Hx').
      apply elem_of_concat. exists p. split; [done|].
      by eapply list_elem_of_lookup_2.
    + f_equal. by apply IH.
Qed.

(** Every non-blank line of a file stands in exactly one paragraph. *)
Lemma paragraph_unique (ls : list string) (x : nline) :
  x ∈ numbered ls -> is_blank x.2 = false ->
  exists i p, paragraphs (numbered ls) !! i = Some p /\ x ∈ p
    /\ forall j p', paragraphs (numbered ls) !! j = Some p' -> x ∈ p' -> j = i.
Proof.
  intros Hx Hb.
  assert (Hin : x ∈ concat (paragraphs (numbered ls))).
  { rewrite paragraphs_concat. apply list_elem_of_In, filter_In.
    split; [by apply list_elem_of_In | by rewrite Hb]. }
  apply elem_of_concat in Hin as (p & Hxp & Hp).
  apply list_elem_of_lookup in Hp as [i Hi].
  exists i, p. split_and!; [done..|].
  intros j p' Hj Hxp'.
  eapply (concat_NoDup_unique _ x j i p' p); try done.
  rewrite paragraphs_concat. apply NoDup_ListNoDup, List.NoDup_filter, NoDup_ListNoDup, numbered_NoDup.
Qed.

End TextFacts.

(** ** The claims about the text *)

Section TextClaims.

Import Text Fixture.

(** Closes [Forall P l] on an explicit list, each instance by evaluation. *)
Ltac forall_by_evaluation :=
  repeat (apply List.Forall_cons; [ vm_compute; repeat split; reflexivity | ]);
  apply List.Forall_nil.

Lemma elem_of_annotations (ls : list string) (n : nat) (s c : string) :
  (n, s) ∈ numbered ls -> category s = Some c -> (n, c) ∈ annotations ls.
Proof.
  intros Hin Hc. apply list_elem_of_omap. exists (n, s). split; [done|].
  simpl. by rewrite Hc.
Qed.

Lemma numbered_elem (ls : list string) (n : nat) (s : string) :
  (n, s) ∈ numbered ls <-> 1 <= n /\ ls !! (n - 1) = Some s.
Proof. apply number_from_lookup. Qed.

(** C1. The annotation comments of the file name the seven categories
    "Network Call", "Debug Statement", "Unfinished Block", "Database
    Operation", "Error Handling", "Authentication" and "Configuration", once
    each and in that order: these are the labels of the annotation lines, read
    down the file, and the labels that introduce the groups; no two are the
    same; each stands between double quotes exactly once in the whole file;
    the phrase "should be tagged as" stands on the annotation lines only, so
    the file holds no other category label. *)
Theorem C1_seven_categories :
  map snd (annotations test_python) = categories
  /\ map g_category (groups test_python) = categories
  /\ NoDup categories
  /\ Forall (fun c => occurrences (q +:+ c +:+ q) test_python = 1) categories
  /\ occurrence_lines "should be tagged as" test_python
     = map fst (annotations test_python)
  /\ (forall (n : nat) (s c : string),
        (n, s) ∈ numbered test_python -> category s = Some c -> c ∈ categories).
Proof.
  assert (Hall : map snd (annotations test_python) = categories)
    by (vm_compute; reflexivity).
  split_and!.
  - done.
  - by vm_compute.
  - apply NoDup_ListNoDup. unfold categories.
    repeat (apply List.NoDup_cons; [ vm_compute; intuition discriminate | ]).
    apply List.NoDup_nil.
  - unfold categories. forall_by_evaluation.
  - by vm_compute.
  - intros n s c Hin Hc. rewrite <- Hall.
    apply list_elem_of_In, (in_map snd _ (n, c)), list_elem_of_In.
    exact (elem_of_annotations _ _ _ _ Hin Hc).
Qed.

(** Every line of a paragraph is a line of the file. *)
Lemma paragraph_lines (ls : list string) (p : list nline) (x : nline) :
  p ∈ paragraphs (numbered ls) -> x ∈ p -> x ∈ numbered ls.
Proof.
  intros Hp Hx.
  assert (Hin : x ∈ concat (paragraphs (numbered ls)))
    by (apply elem_of_concat; eauto).
  rewrite paragraphs_concat in Hin.
  apply list_elem_of_In, filter_In in Hin as [Hin _]. by apply list_elem_of_In.
Qed.

(** In any file, the line that introduces a group has the shape of an
    annotation, with the group's description and category. *)
Lemma group_heading_shape (ls : list string) (g : group) :
  g ∈ groups ls ->
  exists s, (g.(g_line), s) ∈ numbered ls
            /\ annotation_shape s g.(g_description) g.(g_category).
Proof.
  unfold groups. intros (p & Hp & Hg)%list_elem_of_omap.
  destruct p as [|[n s] body]; [discriminate|]. simpl in Hg.
  destruct (annotation s) as [[d c]|] eqn:Ha; [|discriminate].
  injection Hg as <-. simpl. exists s. split.
  - eapply paragraph_lines; [done|]. apply list_elem_of_here.
  - by apply annotation_shape_iff.
Qed.

Lemma no_annotation_no_shape (s : string) :
  annotation s = None -> forall d c, ~ annotation_shape s d c.
Proof. intros Hn d c Hs%annotation_shape_iff. congruence. Qed.

Lemma plain_comment_no_shape (ls : list string) (x : nline) :
  x ∈ plain_comments ls -> forall d c, ~ annotation_shape x.2 d c.
Proof.
  unfold plain_comments. intros [_ Hx]%list_elem_of_In%filter_In.
  apply no_annotation_no_shape.
  destruct (annotation x.2); [|done]. by rewrite andb_false_r in Hx.
Qed.

Lemma unannotated_imports :
  unannotated test_python = [[(1, "import requests"); (2, "import json")]].
Proof. vm_compute; reflexivity. Qed.

(** C2. The repository holds exactly one source file.  In it the only
    paragraph that no annotation introduces is the two imports: every other
    run of lines starts with a comment that states its category.  And every
    line of the file that is neither blank nor an import stands in exactly one
    paragraph, which is such an annotated group. *)
Theorem C2_annotated_groups :
  map fst repository = ["test-files/test-python.py"]
  /\ unannotated test_python = [[(1, "import requests"); (2, "import json")]]
  /\ (forall x : nline,
        x ∈ numbered test_python -> is_blank x.2 = false -> is_import x.2 = false ->
        exists i p g,
          paragraphs (numbered test_python) !! i = Some p
          /\ group_of p = Some g /\ x ∈ p
          /\ forall j p', paragraphs (numbered test_python) !! j = Some p' ->
                           x ∈ p' -> j = i).
Proof.
  split_and!; [reflexivity | exact unannotated_imports |].
  intros x Hx Hb Hi.
  destruct (paragraph_unique _ x Hx Hb) as (i & p & Hp & Hxp & Huniq).
  destruct (group_of p) as [g|] eqn:Hg.
  - exists i, p, g. by split_and!.
  - exfalso.
    assert (Hun : In p (unannotated test_python)).
    { apply filter_In. split; [|by rewrite Hg].
      apply list_elem_of_In. by eapply list_elem_of_lookup_2. }
    rewrite unannotated_imports in Hun. destruct Hun as [<-|[]].
    apply list_elem_of_In in Hxp. simpl in Hxp.
    destruct Hxp as [<-|[<-|[]]]; discriminate.
Qed.

(** C2 at line 5: it stands in one paragraph only, the group "Network Call". *)
Lemma C2_line5 :
  let x : nline := (5, "response = requests.get('https://api.example.com')") in
  x ∈ numbered test_python /\ is_blank x.2 = false /\ is_import x.2 = false
  /\ exists i p g,
       paragraphs (numbered test_python) !! i = Some p
       /\ group_of p = Some g /\ x ∈ p
       /\ forall j p', paragraphs (numbered test_python) !! j = Some p' ->
                        x ∈ p' -> j = i.
Proof.
  assert (Hx : (5, "response = requests.get('https://api.example.com')")
               ∈ numbered test_python)
    by (apply numbered_elem; split; [lia | reflexivity]).
  split_and!; [exact Hx | reflexivity | reflexivity |].
  exact (proj2 (proj2 C2_annotated_groups) _ Hx eq_refl eq_refl).
Defined.

(** C8. Every comment that introduces a group has the one shape
    [# <description> - should be tagged as "<Category>"], the label between
    double quotes; exactly seven lines of the file have that shape, the seven
    that introduce the groups; and of the eleven comment lines the other four
    (lines 14 to 17) do not have it, whatever description and label are
    tried. *)
Theorem C8_uniform_format :
  Forall (fun g =>
            exists s, (g.(g_line), s) ∈ numbered test_python
                      /\ annotation_shape s g.(g_description) g.(g_category))
         (groups test_python)
  /\ length (annotations test_python) = 7
  /\ map fst (annotations test_python) = map g_line (groups test_python)
  /\ map fst (comment_lines test_python) = [4; 8; 13; 14; 15; 16; 17; 19; 25; 32; 38]
  /\ map fst (plain_comments test_python) = [14; 15; 16; 17]
  /\ Forall (fun x : nline => forall d c, ~ annotation_shape x.2 d c)
            (plain_comments test_python).
Proof.
  split_and!.
  - apply Forall_forall. intros g Hg. by apply group_heading_shape.
  - vm_compute; reflexivity.
  - vm_compute; reflexivity.
  - vm_compute; reflexivity.
  - vm_compute; reflexivity.
  - apply Forall_forall. intros x Hx. by apply (plain_comment_no_shape test_python).
Qed.

Lemma unfinished_group :
  groups test_python !! 2
  = Some (Group 13 "TODOs" "Unfinished Block"
            [ (14, "# TODO: Add error handling")
            ; (15, "# FIXME: This function is broken")
            ; (16, "# HACK: Temporary fix for the bug")
            ; (17, "# NOTE: Remember to update this") ]).
Proof. vm_compute; reflexivity. Qed.

(** C9. The group annotated "Unfinished Block" is four lines, all comments;
    they carry the markers TODO, FIXME, HACK and NOTE, in that order, one
    each and no two the same; these are the only marker comments of the file,
    and as a word each marker stands on its own line and nowhere else. *)
Theorem C9_unfinished_markers :
  exists g,
    groups test_python !! 2 = Some g
    /\ g.(g_category) = "Unfinished Block"
    /\ map g_category (groups test_python) !! 2 = Some "Unfinished Block"
    /\ length g.(g_body) = 4
    /\ forallb (fun x : nline => is_comment x.2) g.(g_body) = true
    /\ map snd (markers g.(g_body)) = unfinished_markers
    /\ NoDup unfinished_markers
    /\ markers (numbered test_python) = markers g.(g_body)
    /\ map (fun w => word_lines w test_python) unfinished_markers
       = [[14]; [15]; [16]; [17]]
    /\ map (fun w => occurrences (w +:+ ":") test_python) unfinished_markers
       = [1; 1; 1; 1].
Proof.
  eexists. split; [exact unfinished_group|]. cbn [g_category g_body].
  split_and!; try (vm_compute; reflexivity).
  apply NoDup_ListNoDup. unfold unfinished_markers.
  repeat (apply List.NoDup_cons; [ vm_compute; intuition discriminate | ]).
  apply List.NoDup_nil.
Qed.

(** As a run of characters, not as a word, TODO also stands inside "TODOs"
    on the annotation line 13; the other three markers do not recur. *)
Remark marker_characters :
  map (fun w => occurrence_lines w test_python) unfinished_markers
  = [[13; 14]; [15]; [16]; [17]].
Proof. vm_compute; reflexivity. Qed.

(** C4 as it is worded fails: the group "Unfinished Block" holds comments
    only. *)
Lemma C4_comment_only_group : ~ every_group_has_code test_python.
Proof.
  unfold every_group_has_code. intros H.
  pose proof (proj1 (Forall_lookup _ _) H 2 _ unfinished_group) as Hg.
  vm_compute in Hg. discriminate.
Qed.

(** C4, amended. Every category label is paired with lines to be tagged:
    each of the seven groups has lines under its annotation, and all but one
    hold code; the group "Unfinished Block" is the exception, its four lines
    being the comments that are themselves the content to tag. *)
Theorem C4_groups_and_content :
  group_summary test_python
  = [ ("Network Call", 2, true); ("Debug Statement", 3, true)
    ; ("Unfinished Block", 4, false); ("Database Operation", 4, true)
    ; ("Error Handling", 5, true); ("Authentication", 4, true)
    ; ("Configuration", 3, true) ]
  /\ Forall (fun g => g.(g_body) <> [])  (groups test_python)
  /\ Forall (fun g => has_code g = negb (String.eqb g.(g_category) "Unfinished Block"))
            (groups test_python)
  /\ exists g, groups test_python !! 2 = Some g
               /\ g.(g_category) = "Unfinished Block"
               /\ forallb (fun x : nline => is_comment x.2) g.(g_body) = true.
Proof.
  assert (Hs : map (fun g => (length g.(g_body), has_code g,
                              negb (String.eqb g.(g_category) "Unfinished Block")))
                   (groups test_python)
               = [ (2, true, true); (3, true, true); (4, false, false)
                 ; (4, true, true); (5, true, true); (4, true, true)
                 ; (3, true, true) ]) by (vm_compute; reflexivity).
  split_and!.
  - vm_compute; reflexivity.
  - apply Forall_forall. intros g Hg%list_elem_of_In.
    apply (in_map (fun g => (length g.(g_body), has_code g,
                             negb (String.eqb g.(g_category) "Unfinished Block")))) in Hg.
    rewrite Hs in Hg. intros Hnil. rewrite Hnil in Hg. simpl in Hg.
    repeat (destruct Hg as [Hg|Hg]; [discriminate|]). done.
  - apply Forall_forall. intros g Hg%list_elem_of_In.
    apply (in_map (fun g => (length g.(g_body), has_code g,
                             negb (String.eqb g.(g_category) "Unfinished Block")))) in Hg.
    rewrite Hs in Hg. simpl in Hg.
    repeat (destruct Hg as [Hg|Hg]; [injection Hg as _ H1 H2; congruence|]). done.
  - eexists. split; [exact unfinished_group|]. split; reflexivity.
Qed.

(** C3 as it is worded fails: line 26 opens a [try]. *)
Lemma C3_has_control_flow : ~ no_control_flow test_python.
Proof.
  intros H. specialize (H (26, "try:")).
  assert (Hx : (26, "try:") ∈ numbered test_python)
    by (apply numbered_elem; split; [lia | reflexivity]).
  apply H in Hx. vm_compute in Hx. discriminate.
Qed.

End TextClaims.

(** ** The claims about the module *)

Section ModuleClaims.

Import Text Fixture.

(** The module, printed, is the code of the file: every line that is
    neither blank nor a comment, with its number. *)
Lemma unparse_is_the_code : Py.unparse Py.test_python = code_lines test_python.
Proof. vm_compute; reflexivity. Qed.

(** C3, amended. The file is a list of annotated examples without loops and
    without function or class definitions; it does hold control flow, as
    sample content: one try/except block, whose handler raises (the lines
    headed by [try], [except] and [raise]), and one [if].  These two are the
    only compound statements of the module, and the four lines inside them
    are the only indented lines of the file. *)
Theorem C3_control_flow_present :
  control_lines test_python = [ (26, "try"); (28, "except"); (30, "raise"); (34, "if") ]
  /\ Forall (fun w => code_word_lines w test_python = []) (looping ++ defining)
  /\ indented test_python = [ (27, 4); (29, 4); (30, 4); (35, 4) ]
  /\ List.filter is_compound (Py.all_stmts Py.test_python) = [ the_try; the_if ]
  /\ Py.unparse Py.test_python = code_lines test_python.
Proof.
  split_and!.
  2: { unfold looping, defining. cbn [app].
       repeat (apply List.Forall_cons; [ vm_compute; reflexivity | ]).
       apply List.Forall_nil. }
  all: vm_compute; reflexivity.
Qed.

(** C5. The module has exactly one [try] statement, at lines 26 to 30, all
    of them lines of the group annotated "Error Handling"; its one handler
    catches [Exception] as [e], prints an f-string holding [e], and raises
    [ValueError("Custom error")]; that [raise] is the only one of the module;
    no line outside lines 26 to 30 is headed by an exception-handling keyword,
    and no class is defined. *)
Theorem C5_one_try_except :
  List.filter is_try (Py.all_stmts Py.test_python) = [ the_try ]
  /\ List.filter is_raise (Py.all_stmts Py.test_python) = [ the_raise ]
  /\ List.filter is_raise (Py.substmts the_try) = [ the_raise ]
  /\ map fst (Py.unparse_stmt 0 the_try) = [ 26; 27; 28; 29; 30 ]
  /\ (exists g, groups test_python !! 4 = Some g
                /\ g.(g_category) = "Error Handling"
                /\ map fst g.(g_body) = [ 26; 27; 28; 29; 30 ])
  /\ keyword_lines exception_handling test_python
     = [ (26, "try"); (28, "except"); (30, "raise") ]
  /\ code_word_lines "class" test_python = []
  /\ Py.unparse Py.test_python = code_lines test_python.
Proof.
  split_and!.
  5: { exists (Group 25 "Error handling" "Error Handling"
                 (List.filter (fun x : nline => Nat.leb 26 x.1 && Nat.leb x.1 30)
                              (numbered test_python))).
       split_and!; vm_compute; reflexivity. }
  all: vm_compute; reflexivity.
Qed.

(** C6. The file defines no component and no interface: no code line holds
    [def], [class], [async] or [lambda], nor a word of an entry point, a
    command line, a socket, a file or a store; [requests] and [json] are its
    only imports and [json] is never read; and every statement of the module,
    nested ones included, is an import or a line of an annotated group. *)
Theorem C6_no_component :
  Forall (fun w => code_word_lines w test_python = []) (defining ++ interface_words)
  /\ Py.imports Py.test_python = [ "requests"; "json" ]
  /\ Text.mem "json" (map snd (Py.referenced Py.test_python)) = false
  /\ forallb (fun s => is_import_stmt s || in_a_group test_python (Py.stmt_line s))
             (Py.all_stmts Py.test_python) = true
  /\ map Py.stmt_line (List.filter is_import_stmt (Py.all_stmts Py.test_python)) = [ 1; 2 ]
  /\ Py.unparse Py.test_python = code_lines test_python.
Proof.
  split_and!.
  1: { unfold defining, interface_words. cbn [app].
       repeat (apply List.Forall_cons; [ vm_compute; reflexivity | ]).
       apply List.Forall_nil. }
  all: vm_compute; reflexivity.
Qed.

End ModuleClaims.

(** ** Facts about names and about the evaluator *)

Section NameFacts.

Import Fixture.

Lemma mem_spec (x : string) (l : list string) : Text.mem x l = true <-> x ∈ l.
Proof.
  unfold Text.mem. rewrite existsb_exists. split.
  - intros (y & Hy & E). apply String.eqb_eq in E. subst y.
    by apply list_elem_of_In.
  - intros H. exists x. split; [ by apply list_elem_of_In | apply String.eqb_refl ].
Qed.

Lemma mem_false (x : string) (l : list string) : Text.mem x l = false <-> x ∉ l.
Proof.
  rewrite <- mem_spec. destruct (Text.mem x l); split; done.
Qed.

Lemma elem_of_map_snd {A B} (b : B) (l : list (A * B)) :
  b ∈ map snd l <-> exists a, (a, b) ∈ l.
Proof.
  rewrite list_elem_of_In, in_map_iff. split.
  - intros ([a b'] & E & H). simpl in E. subst b'. exists a. by apply list_elem_of_In.
  - intros (a & H). exists (a, b). split; [ done | by apply list_elem_of_In ].
Qed.

Lemma first_reads_sound (seen : list string) (rs : list (nat * string))
    (l : nat) (x : string) :
  (l, x) ∈ Py.first_reads seen rs -> (l, x) ∈ rs /\ x ∉ seen.
Proof.
  revert seen. induction rs as [|[l' y] rs IH]; intros seen; simpl.
  - intros H. by apply not_elem_of_nil in H.
  - destruct (Py.mem y seen) eqn:E.
    + intros H. destruct (IH _ H) as [H1 H2]. split; [ by right | done ].
    + rewrite elem_of_cons. intros [H|H].
      * injection H as -> ->. split; [ by left | by apply mem_false ].
      * destruct (IH _ H) as [H1 H2]. split; [ by right | ].
        intros Hx. apply H2. by right.
Qed.

Lemma first_reads_complete (seen : list string) (rs : list (nat * string))
    (x : string) :
  x ∈ map snd rs -> x ∉ seen -> x ∈ map snd (Py.first_reads seen rs).
Proof.
  revert seen. induction rs as [|[l' y] rs IH]; intros seen; simpl.
  - intros H. by apply not_elem_of_nil in H.
  - rewrite elem_of_cons. intros Hin Hseen.
    destruct (Py.mem y seen) eqn:E.
    + destruct Hin as [->|Hin]; [ | by apply IH ].
      apply mem_spec in E. done.
    + simpl. rewrite elem_of_cons.
      destruct (decide (x = y)) as [->|Hne]; [ by left | right ].
      destruct Hin as [->|Hin]; [ done | ].
      apply IH; [ done | ]. rewrite not_elem_of_cons. done.
Qed.

(** The names [unbound] lists are the names that the module reads, never
    binds, and that are not built in. *)
Lemma unbound_spec (m : list Py.stmt) (x : string) :
  x ∈ map snd (Py.unbound m) <-> never_bound m x /\ Py.is_builtin x = false.
Proof.
  unfold Py.unbound, never_bound. rewrite elem_of_map_snd. split.
  - intros (l & H). apply list_elem_of_In, filter_In in H. destruct H as [H Hf].
    apply list_elem_of_In, first_reads_sound in H. destruct H as [H _].
    simpl in Hf. apply andb_true_iff in Hf. destruct Hf as [Hd Hb].
    apply negb_true_iff in Hd, Hb. split_and!; [ | by apply mem_false | done ].
    apply elem_of_map_snd. by exists l.
  - intros [[Hr Hd] Hb].
    assert (Hf : x ∈ map snd (Py.first_reads [] (Py.referenced m))).
    { apply first_reads_complete; [ done | apply not_elem_of_nil ]. }
    apply elem_of_map_snd in Hf. destruct Hf as [l Hf]. exists l.
    apply list_elem_of_In, filter_In. split; [ by apply list_elem_of_In | ].
    simpl. apply mem_false in Hd. unfold Py.mem. by rewrite Hd, Hb.
Qed.

End NameFacts.

Section RunFacts.

Import Py.

Context {W : Type} (wld : world W).

Lemma eval_Call (l : nat) (f : expr) (args : list expr)
    (kws : list (string * expr)) (st : state W) :
  eval wld l (Call f args kws) st
  = match eval wld l f st with
    | (st1, inl fv) =>
        match eval_args (eval wld l) args st1 with
        | (st2, inl vs) =>
            match eval_keywords (eval wld l) kws st2 with
            | (st3, inl kvs) => call_value wld l st3 fv vs kvs
            | (st3, inr x) => (st3, inr x)
            end
        | (st2, inr x) => (st2, inr x)
        end
    | (st1, inr x) => (st1, inr x)
    end.
Proof. reflexivity. Qed.

Lemma eval_JoinedStr (l : nat) (k : quote) (vs : list expr) (st : state W) :
  eval wld l (JoinedStr k vs) st = eval_parts (eval wld l) l vs "" st.
Proof. reflexivity. Qed.

Lemma keeps_refl {A} (l : nat) (st : state W) (a : A) : keeps l st (st, inl a).
Proof. split; [ reflexivity | intros x [=] ]. Qed.

Lemma keeps_return {A} (l : nat) (st st' : state W) (a : A) :
  ns st' = ns st -> keeps l st (st', inl a).
Proof. intros H. split; [ done | intros x [=] ]. Qed.

Lemma keeps_raise {A} (l : nat) (st st' : state W) (x : exc) :
  ns st' = ns st -> exc_line x = l -> keeps (A := A) l st (st', inr x).
Proof. intros H1 H2. split; [ done | ]. by intros y [= <-]. Qed.

Lemma keeps_from {A} (l : nat) (st st1 : state W) (p : state W * (A + exc)) :
  ns st1 = ns st -> keeps l st1 p -> keeps l st p.
Proof. intros E [H1 H2]. split; [ congruence | done ]. Qed.

Lemma keeps_stamp {A} (l : nat) (st : state W) (w : W)
    (r : A + string * list value) :
  keeps l st (stamp l w (ns st) r).
Proof.
  destruct r as [a|[c args]]; simpl.
  - split; [ reflexivity | intros x [=] ].
  - split; [ reflexivity | ]. by intros x [= <-].
Qed.

Lemma keeps_call_value (l : nat) (st : state W) (f : value) (args : list value)
    (kws : list (string * value)) :
  keeps l st (call_value wld l st f args kws).
Proof.
  unfold call_value.
  destruct f; try (destruct (w_call wld (wd st) _ args kws); apply keeps_stamp).
  destruct (mem b builtin_exceptions).
  - destruct kws; [ apply keeps_refl | by apply keeps_raise ].
  - destruct (w_call wld (wd st) _ args kws); apply keeps_stamp.
Qed.

Lemma keeps_format_value (l : nat) (st : state W) (v : value) :
  keeps l st (format_value wld l st v).
Proof.
  unfold format_value.
  destruct v; try apply keeps_refl;
    destruct (w_format wld (wd st) _) as [w [?|[? ?]]]; simpl;
    first [ by apply keeps_return | by apply keeps_raise ].
Qed.

(** Evaluating an expression never rebinds a global, and what it raises
    carries the line of the statement it belongs to. *)
Lemma eval_keeps (e : expr) (l : nat) (st : state W) :
  keeps l st (eval wld l e st).
Proof.
  revert st. induction e as [x|k s|n|e IH|k vs IH|e a IH|f args kws IHf IHa IHk]
    using expr_induction; intros st.
  - simpl. destruct (lookup_name (ns st) x);
      [ apply keeps_refl | by apply keeps_raise ].
  - apply keeps_refl.
  - apply keeps_refl.
  - simpl. destruct (IH st) as [H1 H2].
    destruct (eval wld l e st) as [st1 [v|x]]; simpl in *.
    + eapply keeps_from; [ exact H1 | apply keeps_format_value ].
    + apply keeps_raise; [ done | by apply H2 ].
  - rewrite eval_JoinedStr. generalize "" as acc. revert st.
    induction IH as [|v vs Hv _ IHvs]; intros st acc; simpl.
    + apply keeps_refl.
    + destruct (Hv st) as [H1 H2].
      destruct (eval wld l v st) as [st1 [[]|x]]; simpl in *;
        try (by apply keeps_raise);
        try (apply keeps_raise; [ done | by apply H2 ]).
      eapply keeps_from; [ exact H1 | apply IHvs ].
  - simpl. destruct (IH st) as [H1 H2].
    destruct (eval wld l e st) as [st1 [v|x]]; simpl in *.
    + destruct (w_getattr wld (wd st1) v a) as [w r].
      eapply keeps_from; [ exact H1 | apply keeps_stamp ].
    + apply keeps_raise; [ done | by apply H2 ].
  - rewrite eval_Call. destruct (IHf st) as [H1 H2].
    destruct (eval wld l f st) as [st1 [fv|x]]; simpl in *;
      [ | apply keeps_raise; [ done | by apply H2 ] ].
    assert (Ha : forall st, keeps l st (eval_args (eval wld l) args st)).
    { clear -IHa. induction IHa as [|e es He _ IHes]; intros st; simpl.
      - apply keeps_refl.
      - destruct (He st) as [H1 H2].
        destruct (eval wld l e st) as [st1 [v|x]]; simpl in *;
          [ | apply keeps_raise; [ done | by apply H2 ] ].
        destruct (IHes st1) as [H3 H4].
        destruct (eval_args (eval wld l) es st1) as [st2 [vs|x]]; simpl in *.
        + split; [ simpl; congruence | intros x [=] ].
        + apply keeps_raise; [ congruence | by apply H4 ]. }
    assert (Hk : forall st, keeps l st (eval_keywords (eval wld l) kws st)).
    { clear -IHk. induction IHk as [|[k e] ks He _ IHks]; intros st; simpl.
      - apply keeps_refl.
      - simpl in He. destruct (He st) as [H1 H2].
        destruct (eval wld l e st) as [st1 [v|x]]; simpl in *;
          [ | apply keeps_raise; [ done | by apply H2 ] ].
        destruct (IHks st1) as [H3 H4].
        destruct (eval_keywords (eval wld l) ks st1) as [st2 [vs|x]]; simpl in *.
        + split; [ simpl; congruence | intros x [=] ].
        + apply keeps_raise; [ congruence | by apply H4 ]. }
    destruct (Ha st1) as [H3 H4].
    destruct (eval_args (eval wld l) args st1) as [st2 [vs|x]]; simpl in *;
      [ | apply keeps_raise; [ congruence | by apply H4 ] ].
    destruct (Hk st2) as [H5 H6].
    destruct (eval_keywords (eval wld l) kws st2) as [st3 [kvs|x]]; simpl in *;
      [ | apply keeps_raise; [ congruence | by apply H6 ] ].
    eapply keeps_from; [ | apply keeps_call_value ]. congruence.
Qed.

End RunFacts.

(** ** The claims about running the module *)

Section RunClaims.

Import Fixture.

Lemma exec_block_cons {W} (wld : Py.world W) (s : Py.stmt) (ss : list Py.stmt)
    (st : Py.state W) :
  Py.exec_block wld (s :: ss) st
  = match Py.exec wld s st with
    | (st', None) => Py.exec_block wld ss st'
    | (st', Some x) => (st', Some x)
    end.
Proof. reflexivity. Qed.

(** A method call on a name that is not bound raises [NameError] before
    anything else of the call is evaluated. *)
Lemma eval_method_of_unbound {W} (wld : Py.world W) (l : nat) (x a : string)
    (args : list Py.expr) (kws : list (string * Py.expr)) (st : Py.state W) :
  Py.lookup_name (Py.ns st) x = None ->
  Py.eval wld l (Py.Call (Py.Attribute (Py.Name x) a) args kws) st
  = (st, inr (Py.name_error l x)).
Proof. intros H. rewrite eval_Call. cbn [Py.eval]. by rewrite H. Qed.

Lemma http_after_line5 (v : Py.value) :
  Py.lookup_name (<["response" := v]> imported) "http" = None.
Proof.
  unfold Py.lookup_name, imported.
  rewrite !lookup_insert_ne by done. rewrite lookup_empty.
  vm_compute; reflexivity.
Qed.

(** Whatever follows line 6, the module stops at line 5 or at line 6. *)
Lemma run_through_line6 {W} (wld : Py.world W) (w : W) (rest : list Py.stmt) :
  Py.run wld (firstn 4 Py.test_python ++ rest) w
  = match Py.eval wld 5 line5 (Py.State imported w) with
    | (st, inl v) =>
        (Py.State (<["response" := v]> imported) (Py.wd st),
         Some (Py.name_error 6 "http"))
    | (st, inr x) => (st, Some x)
    end.
Proof.
  unfold Py.run, Py.test_python. cbn [firstn app].
  do 3 (rewrite exec_block_cons; cbn [Py.exec Py.ns Py.wd]).
  change (<["json" := Py.VModule "json"]>
            (<["requests" := Py.VModule "requests"]> ∅)) with imported.
  fold line5.
  destruct (eval_keeps wld line5 5 (Py.State imported w)) as [H1 _].
  destruct (Py.eval wld 5 line5 (Py.State imported w)) as [st [v|x]];
    [ | reflexivity ].
  simpl in H1. rewrite H1.
  rewrite exec_block_cons. cbn [Py.exec].
  rewrite eval_method_of_unbound; [ reflexivity | apply http_after_line5 ].
Qed.

Lemma user_is_bound : (20, "user") ∈ Py.defined Py.test_python.
Proof. apply (list_elem_of_lookup_2 _ 4). vm_compute; reflexivity. Qed.

(** C7 as written does not hold: [user], one of the names it lists as never
    defined, is assigned at line 20. *)
Lemma C7_user_is_assigned : ~ Forall (never_bound Py.test_python) named_unbound.
Proof.
  intros H. rewrite Forall_forall in H.
  destruct (H "user") as [_ Hn].
  - apply (list_elem_of_lookup_2 _ 8). reflexivity.
  - apply Hn, elem_of_map_snd. exists 20. apply user_is_bound.
Qed.

(** C7, amended. [requests] and [json] are the only imports.  The names read
    without being bound anywhere in the module, and not built in, are the
    fourteen names [http], [console], [debugger], [User], [users],
    [risky_operation], [generate_jwt_token], [user_id], [login_user],
    [hash_password], [password], [os], [load_config_file] and
    [get_app_settings], first read at the lines given: the names of the list
    without [user], which line 20 assigns.  Run from empty globals, in any
    world, the module never completes: once the call of line 5 has returned
    it stops at line 6 with [NameError] for [http], and otherwise it stops at
    line 5 with what that call raised. *)
Theorem C7_unbound_names :
  Py.imports Py.test_python = [ "requests"; "json" ]
  /\ Py.unbound Py.test_python
     = [ (6, "http"); (10, "console"); (11, "debugger"); (20, "User")
       ; (23, "users"); (27, "risky_operation"); (33, "generate_jwt_token")
       ; (33, "user_id"); (35, "login_user"); (36, "hash_password")
       ; (36, "password"); (39, "os"); (40, "load_config_file")
       ; (41, "get_app_settings") ]
  /\ map snd (Py.unbound Py.test_python)
     = List.filter (fun x => negb (String.eqb x "user")) named_unbound
  /\ (forall x, x ∈ map snd (Py.unbound Py.test_python)
                <-> never_bound Py.test_python x /\ Py.is_builtin x = false)
  /\ (20, "user") ∈ Py.defined Py.test_python
  /\ (forall (W : Type) (wld : Py.world W) (w : W),
        Py.run wld Py.test_python w
        = match Py.eval wld 5 line5 (Py.State imported w) with
          | (st, inl v) =>
              (Py.State (<["response" := v]> imported) (Py.wd st),
               Some (Py.name_error 6 "http"))
          | (st, inr x) => (st, Some x)
          end)
  /\ (forall (W : Type) (wld : Py.world W) (w : W),
        exists x, (Py.run wld Py.test_python w).2 = Some x
                  /\ (x = Py.name_error 6 "http" \/ Py.exc_line x = 5))
  /\ (Py.run quiet Py.test_python tt).2 = Some (Py.name_error 6 "http")
  /\ (Py.run offline Py.test_python tt).2
     = Some (Py.Exc "ConnectionError" [Py.VStr "no route to host"] 5).
Proof.
  assert (Hrun : forall (W : Type) (wld : Py.world W) (w : W),
            Py.run wld Py.test_python w
            = match Py.eval wld 5 line5 (Py.State imported w) with
              | (st, inl v) =>
                  (Py.State (<["response" := v]> imported) (Py.wd st),
                   Some (Py.name_error 6 "http"))
              | (st, inr x) => (st, Some x)
              end).
  { intros W wld w.
    rewrite <- (run_through_line6 wld w (skipn 4 Py.test_python)).
    reflexivity. }
  split_and!.
  - vm_compute; reflexivity.
  - vm_compute; reflexivity.
  - vm_compute; reflexivity.
  - intros x. apply unbound_spec.
  - apply user_is_bound.
  - exact Hrun.
  - intros W wld w. rewrite Hrun.
    destruct (eval_keeps wld line5 5 (Py.State imported w)) as [_ H2].
    destruct (Py.eval wld 5 line5 (Py.State imported w)) as [st [v|x]].
    + eexists. split; [ reflexivity | by left ].
    + exists x. split; [ reflexivity | right; by apply H2 ].
  - rewrite Hrun. vm_compute; reflexivity.
  - rewrite Hrun. vm_compute; reflexivity.
Qed.

End RunClaims.

(** ** Facts about statements *)

Section ExecFacts.

Import Py.

Context {W : Type} (wld : world W).

Lemma exec_If (l : nat) (t : expr) (body orelse : list stmt) (st : state W) :
  exec wld (If l t body orelse) st
  = match eval wld l t st with
    | (st1, inl v) =>
        match truth wld l st1 v with
        | (st2, inl true) => run_block (exec wld) body st2
        | (st2, inl false) => run_block (exec wld) orelse st2
        | (st2, inr x) => (st2, Some x)
        end
    | (st1, inr x) => (st1, Some x)
    end.
Proof. reflexivity. Qed.

Lemma exec_Try (l : nat) (body : list stmt) (hs : list handler) (st : state W) :
  exec wld (Try l body hs) st
  = match run_block (exec wld) body st with
    | (st1, None) => (st1, None)
    | (st1, Some x) => run_handlers wld (exec wld) x hs st1
    end.
Proof. reflexivity. Qed.

Lemma run_block_exec_block (ss : list stmt) (st : state W) :
  run_block (exec wld) ss st = exec_block wld ss st.
Proof.
  revert st. induction ss as [|s ss IH]; intros st; [ reflexivity | ].
  simpl. destruct (exec wld s st) as [st' [x|]]; [ reflexivity | apply IH ].
Qed.

Lemma substmts_If (l : nat) (t : expr) (body orelse : list stmt) :
  substmts (If l t body orelse)
  = If l t body orelse :: all_stmts body ++ all_stmts orelse.
Proof. reflexivity. Qed.

Lemma substmts_Try (l : nat) (body : list stmt) (hs : list handler) :
  substmts (Try l body hs) = Try l body hs :: all_stmts body ++ handler_stmts hs.
Proof.
  cbn [substmts]. f_equal. f_equal. unfold handler_stmts.
  induction hs as [|[hl ty nm hbody] hs' IH]; [ reflexivity | ].
  cbn [flat_map]. f_equal. exact IH.
Qed.

Lemma defined_cons (s : stmt) (ss : list stmt) :
  defined (s :: ss) = flat_map binds (substmts s) ++ defined ss.
Proof. unfold defined, all_stmts. simpl. apply flat_map_app. Qed.

Lemma truth_keeps (l : nat) (st : state W) (v : value) :
  keeps l st (truth wld l st v).
Proof.
  destruct v; try apply keeps_refl. simpl.
  destruct (w_truth wld (wd st) _) as [w r]. apply keeps_stamp.
Qed.

(** What a statement leaves as it was: the globals it does not bind. *)
Lemma run_block_frame (ss : list stmt) :
  Forall (fun s => forall (st : state W) (x : string),
            x ∉ map snd (flat_map binds (substmts s)) ->
            ns (exec wld s st).1 !! x = ns st !! x) ss ->
  forall (st : state W) (x : string),
    x ∉ map snd (defined ss) ->
    ns (run_block (exec wld) ss st).1 !! x = ns st !! x.
Proof.
  induction 1 as [|s ss Hs _ IH]; intros st x Hx; [ reflexivity | ].
  rewrite defined_cons, map_app, elem_of_app in Hx.
  simpl. specialize (Hs st x). destruct (exec wld s st) as [st' [e|]]; simpl in *.
  - apply Hs. tauto.
  - rewrite IH by tauto. apply Hs. tauto.
Qed.

Lemma exec_frame (s : stmt) (st : state W) (x : string) :
  x ∉ map snd (flat_map binds (substmts s)) ->
  ns (exec wld s st).1 !! x = ns st !! x.
Proof.
  revert st x.
  induction s as [l m|l y e|l e|l e|l t body orelse IHb IHo|l body hs IHb IHh]
    using stmt_induction; intros st x Hx.
  - simpl in *. apply lookup_insert_ne. intros ->. apply Hx. by left.
  - simpl in *. destruct (eval_keeps wld e l st) as [H1 _].
    destruct (eval wld l e st) as [st1 [v|ex]]; simpl in *.
    + rewrite lookup_insert_ne; [ by rewrite H1 | ].
      intros ->. apply Hx. by left.
    + by rewrite H1.
  - simpl. destruct (eval_keeps wld e l st) as [H1 _].
    destruct (eval wld l e st) as [st1 [v|ex]]; simpl in *; by rewrite H1.
  - cbn [exec]. destruct (eval_keeps wld e l st) as [H1 _].
    destruct (eval wld l e st) as [st1 [v|ex]]; simpl in H1; [ | by rewrite <- H1 ].
    destruct v; try (by rewrite <- H1).
    destruct (mem b builtin_exceptions); by rewrite <- H1.
  - rewrite exec_If. rewrite substmts_If in Hx.
    change (flat_map binds (If l t body orelse :: all_stmts body ++ all_stmts orelse))
      with (flat_map binds (all_stmts body ++ all_stmts orelse)) in Hx.
    rewrite flat_map_app, map_app, elem_of_app in Hx.
    destruct (eval_keeps wld t l st) as [H1 _].
    destruct (eval wld l t st) as [st1 [v|ex]]; simpl in *; [ | by rewrite H1 ].
    destruct (truth_keeps l st1 v) as [H2 _].
    destruct (truth wld l st1 v) as [st2 [[]|ex]]; simpl in *.
    + rewrite (run_block_frame body IHb) by (unfold defined; tauto). congruence.
    + rewrite (run_block_frame orelse IHo) by (unfold defined; tauto). congruence.
    + congruence.
  - rewrite exec_Try. rewrite substmts_Try in Hx.
    cbn [flat_map] in Hx.
    rewrite map_app, flat_map_app, map_app, !elem_of_app in Hx.
    pose proof (run_block_frame body IHb st x) as Hb.
    destruct (run_block (exec wld) body st) as [st1 [ex|]]; simpl in *;
      [ | apply Hb; unfold defined; tauto ].
    rewrite <- Hb by (unfold defined; tauto).
    assert (Hn : x ∉ map snd (binds (Try l body hs))) by tauto.
    assert (Hh : x ∉ map snd (flat_map binds (handler_stmts hs))) by tauto.
    clear Hx Hb IHb. revert st1. simpl in Hn.
    induction IHh as [|[hl ty nm hbody] hs Hbody _ IH]; intros st1; [ reflexivity | ].
    simpl in Hn, Hh. unfold handler_stmts in Hh. simpl in Hh.
    rewrite flat_map_app, map_app, elem_of_app in Hh.
    rewrite map_app, elem_of_app in Hn.
    simpl. destruct (eval_keeps wld ty hl st1) as [H1 _].
    destruct (eval wld hl ty st1) as [st2 [v|ey]]; simpl in *; [ | by rewrite H1 ].
    destruct v; try (simpl; by rewrite H1).
    destruct (subclass wld (exc_class ex) b).
    + pose proof (run_block_frame hbody Hbody) as Hf.
      destruct nm as [n|].
      * specialize (Hf (State (<[n := VExc (exc_class ex) (exc_args ex)]> (ns st2))
                              (wd st2)) x).
        destruct (run_block (exec wld) hbody _) as [st3 r]; simpl in *.
        assert (Hne : n <> x).
        { intros ->. apply Hn. left. by left. }
        rewrite lookup_delete_ne by done.
        rewrite Hf by (unfold defined; tauto).
        rewrite lookup_insert_ne by done. by rewrite H1.
      * specialize (Hf (State (ns st2) (wd st2)) x).
        destruct (run_block (exec wld) hbody _) as [st3 r]; simpl in *.
        rewrite Hf by (unfold defined; tauto). by rewrite H1.
    + rewrite IH; [ by rewrite H1 | tauto | unfold handler_stmts; tauto ].
Qed.

(** Running a block changes no global but those its statements bind. *)
Lemma exec_block_frame (ss : list stmt) (st : state W) (x : string) :
  x ∉ map snd (defined ss) ->
  ns (exec_block wld ss st).1 !! x = ns st !! x.
Proof.
  rewrite <- run_block_exec_block. apply run_block_frame.
  apply Forall_forall. intros s _. apply exec_frame.
Qed.

End ExecFacts.

(** ** What the samples do when they are run *)

Section Behaviour.

Import Fixture.

Context {W : Type} (wld : Py.world W).

Lemma raise_raises (l : nat) (e : Py.expr) (st : Py.state W) :
  exists x, (Py.exec wld (Py.Raise l e) st).2 = Some x.
Proof.
  cbn [Py.exec]. destruct (Py.eval wld l e st) as [st1 [v|x]]; [ | by exists x ].
  destruct v; try (eexists; reflexivity).
  destruct (Py.mem b Py.builtin_exceptions); eexists; reflexivity.
Qed.

Lemma builtin_lookup (g : gmap string Py.value) (x : string) :
  g !! x = None -> Py.is_builtin x = true ->
  Py.lookup_name g x = Some (Py.VBuiltin x).
Proof. intros H1 H2. unfold Py.lookup_name. by rewrite H1, H2. Qed.

(** Line 30 raises [ValueError("Custom error")] wherever [ValueError] is the
    built-in class. *)
Lemma exec_the_raise (st : Py.state W) :
  Py.ns st !! "ValueError" = None ->
  Py.exec wld the_raise st = (st, Some custom_error).
Proof.
  intros H. unfold the_raise. cbn [Py.exec]. rewrite eval_Call.
  cbn [Py.eval Py.eval_args Py.eval_keywords].
  rewrite (builtin_lookup _ "ValueError") by done.
  unfold Py.call_value.
  change (Py.mem "ValueError" Py.builtin_exceptions) with true. reflexivity.
Qed.

Lemma exec_the_try (st : Py.state W) :
  Py.exec wld the_try st
  = match Py.eval wld 27 risky st with
    | (st1, inl _) => (st1, None)
    | (st1, inr x) =>
        Py.run_handlers wld (Py.exec wld) x
          [ Py.ExceptHandler 28 (Py.Name "Exception") (Some "e")
              [ Py.Expr 29 (Py.Call (Py.Name "print")
                  [Py.JoinedStr Py.Double
                     [Py.Str Py.Double "Error: "; Py.FormattedValue (Py.Name "e")]] [])
              ; the_raise ] ] st1
    end.
Proof.
  unfold the_try. rewrite exec_Try. cbn [Py.run_block Py.exec]. fold risky.
  by destruct (Py.eval wld 27 risky st) as [st1 [v|x]].
Qed.

(** The [try] statement of lines 26 to 30 never swallows an exception: it
    completes exactly when the call of line 27 returns. *)
Theorem try_completes_with_its_body (st : Py.state W) :
  (Py.exec wld the_try st).2 = None
  <-> exists v, (Py.eval wld 27 risky st).2 = inl v.
Proof.
  rewrite exec_the_try.
  destruct (Py.eval wld 27 risky st) as [st1 [v|x]]; cbn [snd].
  { split; [ by exists v | done ]. }
  split; [ | by intros [v [=]] ]. intros H. exfalso. revert H.
  cbn [Py.run_handlers].
  destruct (Py.eval wld 28 (Py.Name "Exception") st1) as [st2 [d|y]]; [ | done ].
  destruct d; try done.
  destruct (Py.subclass wld (Py.exc_class x) b); [ | done ].
  cbn [Py.run_block Py.exec].
  destruct (Py.eval wld 29 _ _) as [st3 [v|y]]; [ | done ].
  destruct (raise_raises 30 (Py.Call (Py.Name "ValueError")
                               [Py.Str Py.Double "Custom error"] []) st3) as [y Hy].
  unfold the_raise.
  destruct (Py.exec wld (Py.Raise 30 _) st3) as [st4 r]. simpl in Hy. subst r. done.
Qed.

(** An exception that [except Exception] catches is never the one that leaves
    the [try] statement: what leaves is [ValueError("Custom error")] from line
    30, or what printing raised at line 29; and [e] is unbound afterwards. *)
Theorem try_replaces_what_it_catches (st st1 : Py.state W) (x : Py.exc) :
  Py.eval wld 27 risky st = (st1, inr x) ->
  Py.subclass wld (Py.exc_class x) "Exception" = true ->
  Py.ns st !! "Exception" = None ->
  Py.ns st !! "print" = None ->
  Py.ns st !! "ValueError" = None ->
  exists st' y,
    Py.exec wld the_try st = (st', Some y)
    /\ Py.ns st' = delete "e" (Py.ns st)
    /\ (y = custom_error \/ Py.exc_line y = 29).
Proof.
  intros Hbody Hsub HE HP HV. rewrite exec_the_try.
  destruct (eval_keeps wld risky 27 st) as [Hns _]. rewrite Hbody in *. simpl in Hns.
  cbn [Py.run_handlers Py.eval].
  rewrite (builtin_lookup _ "Exception") by (by rewrite ?Hns).
  rewrite Hsub. cbn [Py.run_block Py.exec Py.ns Py.wd].
  match goal with
  | |- context [Py.eval wld 29 ?e ?s] =>
      destruct (eval_keeps wld e 29 s) as [H1 H2];
      destruct (Py.eval wld 29 e s) as [st3 [v|y]]
  end; simpl in H1.
  - rewrite exec_the_raise by (rewrite H1, lookup_insert_ne, Hns; done).
    eexists _, _. split_and!; [ reflexivity | | by left ].
    simpl. by rewrite H1, delete_insert_eq, Hns.
  - eexists _, _. split_and!; [ reflexivity | | right; by apply H2 ].
    simpl. by rewrite H1, delete_insert_eq, Hns.
Qed.


(** Where [login_user] is not bound, the [if] of lines 34 and 35 completes
    when its test is false, and fails with [NameError] at line 35 when its
    test is true; evaluating the test changes no global. *)
Theorem if_fails_when_authenticated (st : Py.state W) :
  Py.lookup_name (Py.ns st) "login_user" = None ->
  match Py.eval wld 34 is_authenticated st with
  | (st1, inl t) =>
      match Py.truth wld 34 st1 t with
      | (st2, inl true) =>
          Py.exec wld the_if st = (st2, Some (Py.name_error 35 "login_user"))
          /\ Py.ns st2 = Py.ns st
      | (st2, inl false) =>
          Py.exec wld the_if st = (st2, None) /\ Py.ns st2 = Py.ns st
      | (st2, inr x) => Py.exec wld the_if st = (st2, Some x)
      end
  | (st1, inr x) => Py.exec wld the_if st = (st1, Some x)
  end.
Proof.
  intros Hl. unfold the_if. rewrite exec_If. fold is_authenticated.
  destruct (eval_keeps wld is_authenticated 34 st) as [H1 _].
  destruct (Py.eval wld 34 is_authenticated st) as [st1 [t|x]]; [ | done ].
  destruct (truth_keeps wld 34 st1 t) as [H2 _].
  destruct (Py.truth wld 34 st1 t) as [st2 [[]|x]]; simpl in H1, H2; [ | | done ].
  - split; [ | congruence ]. cbn [Py.run_block Py.exec].
    rewrite eval_Call. cbn [Py.eval]. by rewrite H2, H1, Hl.
  - split; [ done | congruence ].
Qed.

(** The callee comes first: an expression whose head is not bound raises
    [NameError] for it, and nothing else of the expression is evaluated. *)
Lemma eval_unbound_head (e : Py.expr) (l : nat) (st : Py.state W) (x : string) :
  Py.head_name e = Some x -> Py.lookup_name (Py.ns st) x = None ->
  Py.eval wld l e st = (st, inr (Py.name_error l x)).
Proof.
  induction e as [y|k s|n|e IH|k vs IH|e a IH|f args kws IHf IHa IHk]
    using Py.expr_induction; simpl Py.head_name; try discriminate.
  - intros [= ->] H. cbn [Py.eval]. by rewrite H.
  - intros Hh H. cbn [Py.eval]. by rewrite IH.
  - intros Hh H. rewrite eval_Call. by rewrite IHf.
Qed.

Lemma exec_unbound_head (s : Py.stmt) (e : Py.expr) (st : Py.state W) (x : string) :
  Py.stmt_expr s = Some e -> Py.head_name e = Some x ->
  Py.lookup_name (Py.ns st) x = None ->
  Py.exec wld s st = (st, Some (Py.name_error (Py.stmt_line s) x)).
Proof.
  destruct s; simpl Py.stmt_expr; try discriminate; intros [= <-] Hh Hl;
    [ cbn [Py.exec Py.stmt_line] .. | rewrite exec_If; cbn [Py.stmt_line] ];
    by rewrite (eval_unbound_head _ _ _ x).
Qed.

(** Eleven of the samples fail by themselves, whatever the world: where the
    names the module never binds are unbound, each of the statements of lines
    6, 10, 11, 20, 22, 23, 33, 36, 39, 40 and 41 raises [NameError] for the
    name it starts with, at its line, and leaves the globals as they were. *)
Theorem samples_fail_at_their_head (st : Py.state W) :
  all_unbound (Py.ns st) = true ->
  omap failing_head Py.test_python
  = [ (6, "http"); (10, "console"); (11, "debugger"); (20, "User")
    ; (22, "User"); (23, "users"); (33, "generate_jwt_token")
    ; (36, "hash_password"); (39, "os"); (40, "load_config_file")
    ; (41, "get_app_settings") ]
  /\ Forall (fun s => forall l x, failing_head s = Some (l, x) ->
                Py.exec wld s st = (st, Some (Py.name_error l x)))
            Py.test_python.
Proof.
  intros Hu. split; [ vm_compute; reflexivity | ].
  apply Forall_forall. intros s _ l x. unfold failing_head.
  destruct (Py.stmt_expr s) as [e|] eqn:He; [ | done ].
  destruct (Py.head_name e) as [y|] eqn:Hy; [ | done ].
  destruct (Py.mem y _) eqn:Hm; [ | done ]. intros [= <- <-].
  apply (exec_unbound_head s e); [ done | done | ].
  unfold all_unbound in Hu. rewrite forallb_forall in Hu.
  apply mem_spec, list_elem_of_In, Hu in Hm.
  by destruct (Py.lookup_name (Py.ns st) y).
Qed.

End Behaviour.

Section ModuleBehaviour.

Import Fixture.

(** The statements after line 6 never run: whatever stands in their place,
    the module ends as it does. *)
Theorem nothing_after_line6_runs {W : Type} (wld : Py.world W) (w : W)
    (rest : list Py.stmt) :
  Py.run wld (firstn 4 Py.test_python ++ rest) w = Py.run wld Py.test_python w.
Proof.
  rewrite run_through_line6.
  rewrite <- (run_through_line6 wld w (skipn 4 Py.test_python)).
  reflexivity.
Qed.

(** Run from any globals, in any world, the module changes no global but the
    twelve names it binds. *)
Theorem module_binds_only_its_targets {W : Type} (wld : Py.world W)
    (st : Py.state W) (x : string) :
  x ∉ targets ->
  Py.ns (Py.exec_block wld Py.test_python st).1 !! x = Py.ns st !! x.
Proof.
  intros Hx. apply exec_block_frame.
  replace (map snd (Py.defined Py.test_python)) with targets; [ done | ].
  vm_compute; reflexivity.
Qed.

End ModuleBehaviour.

(** ** The samples at work *)

Section Samples.

Import Fixture.

(** With nothing but the imports bound, [risky_operation()] raises
    [NameError], which line 28 catches and line 30 replaces. *)
Lemma try_replaces_name_error :
  Py.eval quiet 27 risky (Py.State imported tt)
  = (Py.State imported tt, inr (Py.name_error 27 "risky_operation"))
  /\ exists st' y,
       Py.exec quiet the_try (Py.State imported tt) = (st', Some y)
       /\ Py.ns st' = delete "e" imported
       /\ (y = custom_error \/ Py.exc_line y = 29).
Proof.
  split; [ vm_compute; reflexivity | ].
  apply (try_replaces_what_it_catches quiet (Py.State imported tt)
           (Py.State imported tt) (Py.name_error 27 "risky_operation"));
    vm_compute; reflexivity.
Defined.


(** With [user] an object that says yes, line 35 fails on [login_user]. *)
Lemma if_fails_on_login_user :
  Py.lookup_name provided "login_user" = None
  /\ Py.exec quiet the_if (Py.State provided tt)
     = (Py.State provided tt, Some (Py.name_error 35 "login_user")).
Proof.
  split; [ vm_compute; reflexivity | ].
  apply (if_fails_when_authenticated quiet (Py.State provided tt)).
  vm_compute; reflexivity.
Defined.

(** [http] is not one of the module's targets: running the module from
    empty globals leaves it unbound. *)
Lemma http_stays_unbound :
  ("http" ∉ targets)
  /\ Py.ns (Py.exec_block quiet Py.test_python (Py.State ∅ tt)).1 !! "http"
     = (∅ : gmap string Py.value) !! "http".
Proof.
  assert (H : "http" ∉ targets) by (apply mem_false; vm_compute; reflexivity).
  split; [ exact H | ].
  exact (module_binds_only_its_targets quiet (Py.State ∅ tt) "http" H).
Defined.

(** With nothing but the imports bound, the eleven samples fail alone. *)
Lemma samples_fail_after_the_imports :
  all_unbound imported = true
  /\ Forall (fun s => forall l x, failing_head s = Some (l, x) ->
                Py.exec quiet s (Py.State imported tt)
                = (Py.State imported tt, Some (Py.name_error l x)))
            Py.test_python.
Proof.
  split; [ vm_compute; reflexivity | ].
  apply (samples_fail_at_their_head quiet (Py.State imported tt)).
  vm_compute; reflexivity.
Defined.

End Samples.
